(** * Second-Brain-Sync: the reconciliation cycle of the git auto-sync script

    A shallow embedding of the polling script (the variant with a configured
    upstream: [runGit], [hasLocalChanges], [getUpstreamRef],
    [hasRemoteChanges], [syncFromOrigin], [syncToOrigin], [sync]).

    The script is straight-line JavaScript whose only interaction with the
    outside is [execSync] (a blocking subprocess call that either returns
    the captured output or throws), the console, the clock and one
    environment variable.  Statements are embedded as functions from the
    process state to an ECMAScript completion record (normal / return /
    throw), the new state, and the list of observable events emitted on the
    way.  The outside world is a section variable: every theorem holds for
    every behaviour of git. *)

From Stdlib Require Import String Ascii List Bool Arith Lia.
Import ListNotations.
Open Scope string_scope.

(** ** JavaScript string helpers *)

Module JS.

(** [String.prototype.trim] removes leading and trailing white space:
    the WhiteSpace and LineTerminator characters of ECMAScript.  A string
    is held here as the bytes of its UTF-8 form, so a white space
    character is one, two or three bytes long. *)

(** TAB, LF, VT, FF, CR and SPACE. *)
Definition is_space (c : ascii) : bool :=
  match nat_of_ascii c with
  | 9 | 10 | 11 | 12 | 13 | 32 => true
  | _ => false
  end.

(** U+00A0 (no-break space), the bytes C2 A0. *)
Definition is_space2 (c1 c2 : ascii) : bool :=
  Nat.eqb (nat_of_ascii c1) 194 && Nat.eqb (nat_of_ascii c2) 160.

(** The white space characters of three bytes: U+1680, U+2000 to U+200A,
    U+2028, U+2029, U+202F, U+205F, U+3000 and U+FEFF. *)
Definition wideSpaces : list (nat * nat * nat) :=
  [ (225, 154, 128);
    (226, 128, 128); (226, 128, 129); (226, 128, 130); (226, 128, 131);
    (226, 128, 132); (226, 128, 133); (226, 128, 134); (226, 128, 135);
    (226, 128, 136); (226, 128, 137); (226, 128, 138);
    (226, 128, 168); (226, 128, 169);
    (226, 128, 175);
    (226, 129, 159);
    (227, 128, 128);
    (239, 187, 191) ].

Definition is_space3 (c1 c2 c3 : ascii) : bool :=
  existsb
    (fun '(a, b, c) =>
       Nat.eqb (nat_of_ascii c1) a && Nat.eqb (nat_of_ascii c2) b
       && Nat.eqb (nat_of_ascii c3) c)
    wideSpaces.

(** [trimStart] removes the white space characters at the start. *)
Fixpoint trimStart (s : string) : string :=
  match s with
  | EmptyString => EmptyString
  | String c1 r1 =>
      if is_space c1 then trimStart r1
      else
        match r1 with
        | EmptyString => s
        | String c2 r2 =>
            if is_space2 c1 c2 then trimStart r2
            else
              match r2 with
              | EmptyString => s
              | String c3 r3 => if is_space3 c1 c2 c3 then trimStart r3 else s
              end
        end
  end.

(** Whether a string is made of white space characters only. *)
Fixpoint blank (s : string) : bool :=
  match s with
  | EmptyString => true
  | String c1 r1 =>
      if is_space c1 then blank r1
      else
        match r1 with
        | EmptyString => false
        | String c2 r2 =>
            if is_space2 c1 c2 then blank r2
            else
              match r2 with
              | EmptyString => false
              | String c3 r3 => if is_space3 c1 c2 c3 then blank r3 else false
              end
        end
  end.

(** [trimEnd] cuts the string where only white space follows. *)
Fixpoint trimEnd (s : string) : string :=
  match s with
  | EmptyString => EmptyString
  | String c r => if blank s then EmptyString else String c (trimEnd r)
  end.

Definition trim (s : string) : string := trimEnd (trimStart s).

(** The double quote character. *)
Definition dquote : ascii := ascii_of_nat 34.
Definition backslash : ascii := ascii_of_nat 92.

(** [message.replace(/"/g, '\\"')]: every double quote gets a backslash. *)
Fixpoint escapeQuotes (s : string) : string :=
  match s with
  | EmptyString => EmptyString
  | String c r =>
      if Ascii.eqb c dquote
      then String backslash (String dquote (escapeQuotes r))
      else String c (escapeQuotes r)
  end.

(** Truthiness of a [string | null] value: [null] and the empty string are
    falsy. *)
Definition truthy (v : option string) : bool :=
  match v with
  | None => false
  | Some s => negb (String.eqb s "")
  end.

(** [s || null] on a string. *)
Definition orNull (s : string) : option string :=
  if String.eqb s "" then None else Some s.

(** [a ?? b]: only [undefined]/[null] select the right operand. *)
Definition nullish (a : option string) (b : string) : string :=
  match a with
  | Some s => s
  | None => b
  end.

End JS.

(** ** Observable events *)

(** What [execSync] throws: the error of the failed subprocess. *)
Definition Err := string.

(** How a subprocess ended.  [stdout] is the text [execSync] returns (the
    output decoded as utf-8), held as UTF-8 bytes. *)
Inductive ExecResult :=
| Ok (stdout : string)
| Failed (err : Err).

Inductive Level := LLog | LWarn | LError.

(** One entry per observable action of the script, in program order.
    [EvGit cmd r] is one call [runGit(cmd)] together with how it ended;
    [EvConsole] is a line on the console, with the error object passed as
    second argument if any; [EvSetSyncing b] is the assignment
    [isSyncing = b]. *)
Inductive Event :=
| EvGit (cmd : string) (r : ExecResult)
| EvConsole (lvl : Level) (msg : string) (err : option Err)
| EvSetSyncing (b : bool).

(** ** Completion records and the statement monad *)

Inductive Completion (R A : Type) :=
| Normal (a : A)
| Return (r : R)
| Throw (e : Err).
Arguments Normal {R A} a.
Arguments Return {R A} r.
Arguments Throw {R A} e.

Module Script.

Section Reconciler.

(** The repository, the remote, the clock and the environment. *)
Variable World : Type.

(** [execSync(command)]: blocks until the subprocess ends. *)
Variable execSync : string -> World -> ExecResult * World.

(** [new Date().toISOString()]. *)
Variable toISOString : World -> string.

(** [process.env.GIT_AUTO_MESSAGE]. *)
Variable GIT_AUTO_MESSAGE : World -> option string.

(** [let isSyncing = false] is the only state the script owns. *)
Record State := mkState { isSyncing : bool; world : World }.

Definition initial (w : World) : State := mkState false w.

Definition Stmt (R A : Type) : Type :=
  State -> Completion R A * State * list Event.

Definition outcome {R A} (m : Stmt R A) (st : State) : Completion R A :=
  fst (fst (m st)).
Definition final {R A} (m : Stmt R A) (st : State) : State :=
  snd (fst (m st)).
Definition events {R A} (m : Stmt R A) (st : State) : list Event :=
  snd (m st).

Definition pure {R A} (a : A) : Stmt R A := fun st => (Normal a, st, []).

Definition bind {R A B} (m : Stmt R A) (k : A -> Stmt R B) : Stmt R B :=
  fun st =>
    match m st with
    | (Normal a, st1, ev1) =>
        let '(c, st2, ev2) := k a st1 in (c, st2, (ev1 ++ ev2)%list)
    | (Return r, st1, ev1) => (Return r, st1, ev1)
    | (Throw e, st1, ev1) => (Throw e, st1, ev1)
    end.

(** [return v;] *)
Definition return_ {R A} (v : R) : Stmt R A := fun st => (Return v, st, []).

(** [try { b } catch (err) { h }] *)
Definition try_catch {R A} (b : Stmt R A) (h : Err -> Stmt R A) : Stmt R A :=
  fun st =>
    match b st with
    | (Throw e, st1, ev1) =>
        let '(c, st2, ev2) := h e st1 in (c, st2, (ev1 ++ ev2)%list)
    | other => other
    end.

(** [try { b } finally { f }]: [f] runs however [b] completed, and the
    completion of [b] stands unless [f] itself completes abruptly. *)
Definition try_finally {R A} (b : Stmt R A) (f : Stmt R unit) : Stmt R A :=
  fun st =>
    let '(c, st1, ev1) := b st in
    match f st1 with
    | (Normal _, st2, ev2) => (c, st2, (ev1 ++ ev2)%list)
    | (Return r, st2, ev2) => (Return r, st2, (ev1 ++ ev2)%list)
    | (Throw e, st2, ev2) => (Throw e, st2, (ev1 ++ ev2)%list)
    end.

(** [if (c) { body }] *)
Definition when_ {R} (c : bool) (body : Stmt R unit) : Stmt R unit :=
  if c then body else pure tt.

(** A call of a function every path of which returns a value. *)
Definition call {R R'} (body : Stmt R Empty_set) : Stmt R' R :=
  fun st =>
    match body st with
    | (Normal a, _, _) => match a with end
    | (Return r, st1, ev1) => (Normal r, st1, ev1)
    | (Throw e, st1, ev1) => (Throw e, st1, ev1)
    end.

(** A call of a [void] function: falling off the end and [return;] are
    the same to the caller. *)
Definition call_void {R'} (body : Stmt unit unit) : Stmt R' unit :=
  fun st =>
    match body st with
    | (Normal _, st1, ev1) => (Normal tt, st1, ev1)
    | (Return _, st1, ev1) => (Normal tt, st1, ev1)
    | (Throw e, st1, ev1) => (Throw e, st1, ev1)
    end.

Notation "x <- m ;; k" := (bind m (fun x => k))
  (at level 61, m at next level, right associativity).
Notation "m ;; k" := (bind m (fun _ => k))
  (at level 61, right associativity).

(** *** Primitives *)

Definition console {R} (lvl : Level) (msg : string) (err : option Err)
  : Stmt R unit :=
  fun st => (Normal tt, st, [EvConsole lvl msg err]).

Definition console_log {R} (msg : string) : Stmt R unit :=
  console LLog msg None.
Definition console_warn {R} (msg : string) : Stmt R unit :=
  console LWarn msg None.
Definition console_error {R} (msg : string) (err : Err) : Stmt R unit :=
  console LError msg (Some err).

Definition read_isSyncing {R} : Stmt R bool :=
  fun st => (Normal (isSyncing st), st, []).

Definition set_isSyncing {R} (b : bool) : Stmt R unit :=
  fun st => (Normal tt, mkState b (world st), [EvSetSyncing b]).

Definition now {R} : Stmt R string :=
  fun st => (Normal (toISOString (world st)), st, []).

Definition env_GIT_AUTO_MESSAGE {R} : Stmt R (option string) :=
  fun st => (Normal (GIT_AUTO_MESSAGE (world st)), st, []).

(** [runGit(cmd)]: [execSync(`git ${cmd}`)]; the captured output on
    success, the subprocess error thrown on failure. *)
Definition runGit {R} (cmd : string) : Stmt R string :=
  fun st =>
    let '(r, w) := execSync ("git " ++ cmd) (world st) in
    let st' := mkState (isSyncing st) w in
    match r with
    | Ok out => (Normal out, st', [EvGit cmd r])
    | Failed e => (Throw e, st', [EvGit cmd r])
    end.

(** A call used as a statement: the value is dropped. *)
Definition runGit_ {R} (cmd : string) : Stmt R unit :=
  _ <- runGit cmd ;; pure tt.

(** *** The script *)

Definition hasLocalChanges_body : Stmt bool Empty_set :=
  try_catch
    (status <- runGit "status --porcelain" ;;
     return_ (Nat.ltb 0 (String.length (JS.trim status))))
    (fun err =>
       console_error "Failed to check local changes:" err ;;
       return_ false).

Definition hasLocalChanges {R} : Stmt R bool := call hasLocalChanges_body.

Definition getUpstreamRef_body : Stmt (option string) Empty_set :=
  try_catch
    (upstream <- runGit "rev-parse --abbrev-ref --symbolic-full-name @{u}" ;;
     return_ (JS.orNull (JS.trim upstream)))
    (fun _ => return_ None).

Definition getUpstreamRef {R} : Stmt R (option string) :=
  call getUpstreamRef_body.

Definition hasRemoteChanges_body : Stmt bool Empty_set :=
  try_catch
    (upstream <- getUpstreamRef ;;
     when_ (negb (JS.truthy upstream))
       (console_warn
          "No upstream configured for current branch; skipping remote change check." ;;
        return_ false) ;;
     runGit_ "fetch" ;;
     localHead <- runGit "rev-parse HEAD" ;;
     remoteHead <- runGit "rev-parse @{u}" ;;
     return_ (negb (String.eqb (JS.trim localHead) (JS.trim remoteHead))))
    (fun err =>
       console_error "Failed to check remote changes:" err ;;
       return_ false).

Definition hasRemoteChanges {R} : Stmt R bool := call hasRemoteChanges_body.

Definition syncFromOrigin_body : Stmt unit unit :=
  console_log "Pulling changes from upstream..." ;;
  hadLocal <- hasLocalChanges ;;
  when_ hadLocal
    (console_log "Stashing local changes..." ;;
     runGit_ "stash") ;;
  try_finally
    (try_catch
       (runGit_ "pull --rebase" ;;
        console_log "✓ Pulled latest changes")
       (fun err =>
          console_error
            "Error pulling from upstream. Manual intervention may be required:"
            err ;;
          return_ tt))
    (when_ hadLocal
       (console_log "Restoring stashed changes..." ;;
        try_catch
          (runGit_ "stash pop")
          (fun err =>
             console_error
               "Error applying stashed changes. Resolve conflicts manually:"
               err))).

Definition syncFromOrigin {R} : Stmt R unit := call_void syncFromOrigin_body.

(** The argument of the commit call:
    [`commit -m "${message.replace(/"/g, '\\"')}"`]. *)
Definition commitCmd (message : string) : string :=
  "commit -m " ++ String JS.dquote (JS.escapeQuotes message)
               ++ String JS.dquote "".

Definition syncToOrigin_body : Stmt unit unit :=
  console_log "Adding changes..." ;;
  runGit_ "add -u" ;;
  stillDirty <- hasLocalChanges ;;
  when_ (negb stillDirty)
    (console_log "No staged changes to commit after add -u; skipping commit." ;;
     return_ tt) ;;
  timestamp <- now ;;
  override <- env_GIT_AUTO_MESSAGE ;;
  let message := JS.nullish override ("Automated commit at " ++ timestamp) in
  console_log "Committing changes..." ;;
  runGit_ (commitCmd message) ;;
  console_log "Pushing changes to upstream..." ;;
  try_catch
    (runGit_ "push" ;;
     console_log ("✓ Committed & pushed at " ++ timestamp))
    (fun err => console_error "Error pushing to remote. Resolve manually:" err).

Definition syncToOrigin {R} : Stmt R unit := call_void syncToOrigin_body.

(** [// Step 1: Pull remote changes first] *)
Definition pullStep {R} : Stmt R unit :=
  diverged <- hasRemoteChanges ;;
  when_ diverged syncFromOrigin.

(** [// Step 2: Push local changes if any] *)
Definition pushStep {R} : Stmt R unit :=
  dirty <- hasLocalChanges ;;
  if dirty
  then console_log "Local changes detected, pushing to upstream..." ;;
       syncToOrigin
  else console_log "No local changes to sync.".

(** The [try] block of [sync]. *)
Definition cycle : Stmt unit unit :=
  upstream <- getUpstreamRef ;;
  when_ (negb (JS.truthy upstream))
    (console_warn
       "No upstream configured for current branch. Configure one to enable syncing." ;;
     return_ tt) ;;
  pullStep ;;
  pushStep.

Definition sync_body : Stmt unit unit :=
  busy <- read_isSyncing ;;
  when_ busy
    (console_log "Sync already in progress, skipping..." ;;
     return_ tt) ;;
  set_isSyncing true ;;
  try_finally
    (try_catch cycle (fun err => console_error "Error during sync:" err))
    (set_isSyncing false).

Definition sync {R} : Stmt R unit := call_void sync_body.

(** The scheduler: [sync()] once at start, then once per timer tick
    ([setInterval(sync, POLL_INTERVAL_MS)]).  [ticks n] is the first [n]
    invocations; an exception escaping one of them would end the process,
    so the remaining ones do not run.  The line printed between the first
    invocation and the timer is left out. *)
Fixpoint ticks (n : nat) : Stmt unit unit :=
  match n with
  | O => pure tt
  | S k => sync ;; ticks k
  end.

(** [confined p m]: whatever the world does, [m] emits only events that
    [p] allows and leaves [isSyncing] as it found it. *)
Definition confined (p : Event -> bool) {R A} (m : Stmt R A) : Prop :=
  forall st,
    forallb p (events m st) = true /\ isSyncing (final m st) = isSyncing st.

End Reconciler.

End Script.

Import Script.

Arguments mkState {World} isSyncing world.
Arguments isSyncing {World} s.
Arguments world {World} s.
Arguments initial {World} w.
Arguments outcome {World R A} m st.
Arguments final {World R A} m st.
Arguments events {World R A} m st.
Arguments confined {World} p {R A} m.

(** ** Properties of event lists *)

Module Trace.

Definition upstreamQuery : string :=
  "rev-parse --abbrev-ref --symbolic-full-name @{u}".

(** The commands of the pull phase: fetch, shelve, rebase-pull,
    unshelve. *)
Definition pullPhaseCmd (cmd : string) : bool :=
  String.eqb cmd "fetch" || String.eqb cmd "stash"
  || String.eqb cmd "pull --rebase" || String.eqb cmd "stash pop".

Definition isCommit (cmd : string) : bool := String.prefix "commit -m " cmd.

(** The commands of the push phase: stage, commit, push. *)
Definition pushPhaseCmd (cmd : string) : bool :=
  String.eqb cmd "add -u" || isCommit cmd || String.eqb cmd "push".

Definition shelveCmd (cmd : string) : bool :=
  String.eqb cmd "stash" || String.eqb cmd "stash pop".

Definition isGit (p : string -> bool) (e : Event) : bool :=
  match e with
  | EvGit cmd _ => p cmd
  | _ => false
  end.

Definition notGit (p : string -> bool) (e : Event) : bool := negb (isGit p e).

(** A git call of a command in [p] that succeeded, or that failed. *)
Definition gitOk (p : string -> bool) (e : Event) : bool :=
  match e with
  | EvGit cmd (Ok _) => p cmd
  | _ => false
  end.

Definition gitFailed (p : string -> bool) (e : Event) : bool :=
  match e with
  | EvGit cmd (Failed _) => p cmd
  | _ => false
  end.

(** The git commands called, in order. *)
Fixpoint gitCalls (evs : list Event) : list string :=
  match evs with
  | [] => []
  | EvGit cmd _ :: rest => cmd :: gitCalls rest
  | _ :: rest => gitCalls rest
  end.

Definition failedGit (e : Event) : bool :=
  match e with
  | EvGit _ (Failed _) => true
  | _ => false
  end.

(** Events other than an assignment to [isSyncing]. *)
Definition notLockWrite (e : Event) : bool :=
  match e with
  | EvSetSyncing _ => false
  | _ => true
  end.

(** How many times the lock is released: [isSyncing = false]. *)
Fixpoint releases (evs : list Event) : nat :=
  match evs with
  | [] => 0
  | EvSetSyncing false :: rest => S (releases rest)
  | _ :: rest => releases rest
  end.

(** [reports cmd e ev]: the console line [ev] is what the script prints
    after the failure [e] of the call [cmd]: a [console.error] line that
    carries [e], or, for the upstream query only, the no-upstream warning
    of the caller, which does not carry [e]. *)
Definition reports (cmd : string) (e : Err) (ev : Event) : bool :=
  match ev with
  | EvConsole LError _ (Some e') => String.eqb e e'
  | EvConsole LWarn msg None =>
      String.eqb cmd upstreamQuery && String.prefix "No upstream configured" msg
  | _ => false
  end.

(** Every failed git call is followed at once by such a line. *)
Fixpoint failuresLogged (evs : list Event) : bool :=
  match evs with
  | [] => true
  | EvGit cmd (Failed e) :: rest =>
      match rest with
      | [] => false
      | ev :: _ => reports cmd e ev
      end && failuresLogged rest
  | _ :: rest => failuresLogged rest
  end.

(** Every pull-phase call of the list stands strictly before every
    push-phase call of the list. *)
Definition PullBeforePush (evs : list Event) : Prop :=
  forall i j ci ri cj rj,
    nth_error evs i = Some (EvGit ci ri) ->
    nth_error evs j = Some (EvGit cj rj) ->
    pullPhaseCmd ci = true -> pushPhaseCmd cj = true -> i < j.

(** The console line with which the second step of [sync] begins. *)
Definition stepTwoLine (e : Event) : bool :=
  match e with
  | EvConsole LLog msg None =>
      String.eqb msg "Local changes detected, pushing to upstream..."
      || String.eqb msg "No local changes to sync."
  | _ => false
  end.

(** The warning of [sync] when no upstream is configured. *)
Definition noUpstreamWarning : Event :=
  EvConsole LWarn
    "No upstream configured for current branch. Configure one to enable syncing."
    None.

(** [replay running evs] follows the events of a run of the process from
    a moment when a cycle is in progress or not: a cycle may begin
    ([isSyncing = true]) only when none is in progress, end only when one
    is, and git is called only by the cycle in progress.  [None] when one
    of these is broken, otherwise whether a cycle is in progress at the
    end. *)
Fixpoint replay (running : bool) (evs : list Event) : option bool :=
  match evs with
  | [] => Some running
  | EvSetSyncing true :: rest => if running then None else replay true rest
  | EvSetSyncing false :: rest => if running then replay false rest else None
  | EvGit _ _ :: rest => if running then replay true rest else None
  | EvConsole _ _ _ :: rest => replay running rest
  end.

End Trace.

(** ** The short format of [git status]

    [git status --porcelain] prints one line [XY PATH] per path: [X] is the
    state of the path in the index, [Y] in the working tree; an untracked
    path is listed as [??] and an ignored one as [!!].  A path has a staged
    change when [X] is neither a space nor one of these two marks. *)

Module Porcelain.

Definition LF : ascii := ascii_of_nat 10.

Fixpoint lines_from (cur : string -> string) (s : string) : list string :=
  match s with
  | EmptyString => [cur EmptyString]
  | String c r =>
      if Ascii.eqb c LF
      then cur EmptyString :: lines_from (fun t => t) r
      else lines_from (fun t => cur (String c t)) r
  end.

Definition lines (s : string) : list string := lines_from (fun t => t) s.

Definition stagedLine (l : string) : bool :=
  match l with
  | String x (String _ _) =>
      negb (Ascii.eqb x " " || Ascii.eqb x "?" || Ascii.eqb x "!")
  | _ => false
  end.

(** Whether the status output lists a staged change. *)
Definition hasStaged (status : string) : bool := existsb stagedLine (lines status).

Definition untrackedLine (l : string) : bool := String.prefix "?? " l.

(** Whether every entry of the status output is an untracked path. *)
Definition untrackedOnly (status : string) : bool :=
  forallb (fun l => String.eqb l "" || untrackedLine l) (lines status).

End Porcelain.

(** ** A scripted git for running the script on concrete repositories *)

Module Mock.

(** The world is the list of the command lines git is going to receive,
    each with its result, in order.  A command line other than the one
    expected fails, as does any command once the list is used up. *)
Definition World : Type := list (string * ExecResult).

Definition execSync (command : string) (w : World) : ExecResult * World :=
  match w with
  | [] => (Failed "mock: nothing left to answer", [])
  | (expected, r) :: rest =>
      if String.eqb expected command
      then (r, rest)
      else (Failed "mock: unexpected command", rest)
  end.

Definition toISOString (_ : World) : string := "2024-05-01T10:00:00.000Z".

Definition GIT_AUTO_MESSAGE (_ : World) : option string := None.

Definition sync : Stmt World unit unit :=
  sync World execSync toISOString GIT_AUTO_MESSAGE.
Definition syncFromOrigin : Stmt World unit unit :=
  syncFromOrigin World execSync.
Definition syncToOrigin : Stmt World unit unit :=
  syncToOrigin World execSync toISOString GIT_AUTO_MESSAGE.
Definition hasLocalChanges : Stmt World unit bool :=
  hasLocalChanges World execSync.
Definition hasRemoteChanges : Stmt World unit bool :=
  hasRemoteChanges World execSync.
Definition getUpstreamRef : Stmt World unit (option string) :=
  getUpstreamRef World execSync.
Definition pullStep : Stmt World unit unit :=
  pullStep World execSync.
Definition pushStep : Stmt World unit unit :=
  pushStep World execSync toISOString GIT_AUTO_MESSAGE.
Definition ticks : nat -> Stmt World unit unit :=
  ticks World execSync toISOString GIT_AUTO_MESSAGE.

Definition nl : string := String Porcelain.LF "".

Definition autoMessage : string := "Automated commit at 2024-05-01T10:00:00.000Z".

Definition conflict : Err := "CONFLICT (content): Merge conflict in notes.md".

(** The upstream is configured and one commit ahead: the answers to the
    upstream query of [sync] and to the divergence check. *)
Definition upstreamAhead : World :=
  [ ("git rev-parse --abbrev-ref --symbolic-full-name @{u}", Ok ("origin/main" ++ nl));
    ("git rev-parse --abbrev-ref --symbolic-full-name @{u}", Ok ("origin/main" ++ nl));
    ("git fetch", Ok "");
    ("git rev-parse HEAD", Ok ("1111111" ++ nl));
    ("git rev-parse @{u}", Ok ("2222222" ++ nl)) ].

(** The upstream is configured and at the commit of the local branch. *)
Definition upstreamLevel : World :=
  [ ("git rev-parse --abbrev-ref --symbolic-full-name @{u}", Ok ("origin/main" ++ nl));
    ("git rev-parse --abbrev-ref --symbolic-full-name @{u}", Ok ("origin/main" ++ nl));
    ("git fetch", Ok "");
    ("git rev-parse HEAD", Ok ("1111111" ++ nl));
    ("git rev-parse @{u}", Ok ("1111111" ++ nl)) ].

(** No upstream is configured for the branch. *)
Definition unconfigured : World :=
  [ ("git rev-parse --abbrev-ref --symbolic-full-name @{u}",
     Failed "fatal: no upstream configured for branch 'main'") ].

(** A pull with a modified tracked file in the working tree, where the
    rebase stops on a conflict: what [syncFromOrigin] meets. *)
Definition pullConflictDirty : World :=
  [ ("git status --porcelain", Ok (" M notes.md" ++ nl));
    ("git stash", Ok "");
    ("git pull --rebase", Failed conflict);
    ("git stash pop", Ok "") ].

(** A whole cycle: the working tree is clean, the upstream is ahead, the
    rebase of the local commits stops on a conflict and leaves the file
    unmerged; the push then fails because the rebase left HEAD detached. *)
Definition cycleConflict : World :=
  app upstreamAhead
  [ ("git status --porcelain", Ok "");
    ("git pull --rebase", Failed conflict);
    ("git status --porcelain", Ok ("UU notes.md" ++ nl));
    ("git add -u", Ok "");
    ("git status --porcelain", Ok ("M  notes.md" ++ nl));
    ("git " ++ commitCmd autoMessage, Ok "");
    ("git push", Failed "fatal: You are not currently on a branch.") ].

(** The push sub-procedure when the only change is a new, untracked file:
    [add -u] stages nothing, the status still lists the file, and git
    refuses the commit. *)
Definition untrackedOnly : World :=
  [ ("git add -u", Ok "");
    ("git status --porcelain", Ok ("?? draft.md" ++ nl));
    ("git " ++ commitCmd autoMessage,
     Failed "nothing added to commit but untracked files present") ].

(** The same in a whole cycle: the upstream is level, the working tree
    holds one untracked file. *)
Definition cycleUntracked : World :=
  app upstreamLevel
  (("git status --porcelain", Ok ("?? draft.md" ++ nl)) :: untrackedOnly).

(** Remote divergence and a local edit: shelve, pull, unshelve, then
    stage, commit and push. *)
Definition divergedDirty : World :=
  app upstreamAhead
  [ ("git status --porcelain", Ok (" M notes.md" ++ nl));
    ("git stash", Ok "");
    ("git pull --rebase", Ok "");
    ("git stash pop", Ok "");
    ("git status --porcelain", Ok (" M notes.md" ++ nl));
    ("git add -u", Ok "");
    ("git status --porcelain", Ok ("M  notes.md" ++ nl));
    ("git " ++ commitCmd autoMessage, Ok "");
    ("git push", Ok "") ].

(** A pull into a clean working tree. *)
Definition pullClean : World :=
  [ ("git status --porcelain", Ok "");
    ("git pull --rebase", Ok "") ].

(** The status query fails. *)
Definition statusFails : World :=
  [ ("git status --porcelain", Failed "fatal: not a git repository") ].

(** The upstream is configured but cannot be reached. *)
Definition fetchFails : World :=
  [ ("git rev-parse --abbrev-ref --symbolic-full-name @{u}", Ok ("origin/main" ++ nl));
    ("git fetch", Failed "fatal: unable to access the remote") ].

End Mock.

(** ** Which calls a phase made, and how each ended *)

Module Shape.

Definition succeeded (r : ExecResult) : bool :=
  match r with
  | Ok _ => true
  | Failed _ => false
  end.

(** The git calls of the commands in [p], in order, each with whether it
    succeeded. *)
Fixpoint outcomes (p : string -> bool) (evs : list Event) : list (string * bool) :=
  match evs with
  | [] => []
  | EvGit cmd r :: rest =>
      if p cmd then (cmd, succeeded r) :: outcomes p rest else outcomes p rest
  | _ :: rest => outcomes p rest
  end.

(** Shelving and pulling: stash, pull --rebase, stash pop. *)
Definition shelvePullCmd (cmd : string) : bool :=
  String.eqb cmd "stash" || String.eqb cmd "pull --rebase"
  || String.eqb cmd "stash pop".

(** The commands that change the repository or the remote. *)
Definition mutatingCmd (cmd : string) : bool :=
  shelvePullCmd cmd || Trace.pushPhaseCmd cmd.

(** The ways the shelve-and-pull calls of one cycle can go: none; a stash
    that failed; a pull alone; or a stash that succeeded, then the pull,
    then the stash pop. *)
Definition pullShape (l : list (string * bool)) : bool :=
  match l with
  | [] => true
  | [(c, ok)] =>
      (String.eqb c "stash" && negb ok) || String.eqb c "pull --rebase"
  | [(s, true); (p, _); (q, _)] =>
      String.eqb s "stash" && String.eqb p "pull --rebase"
      && String.eqb q "stash pop"
  | _ => false
  end.

(** The ways the push-phase calls of one cycle can go: none; the staging
    alone; the staging then a commit that failed; the staging, the commit
    and the push. *)
Definition pushShape (l : list (string * bool)) : bool :=
  match l with
  | [] => true
  | [(a, _)] => String.eqb a "add -u"
  | [(a, true); (c, false)] => String.eqb a "add -u" && Trace.isCommit c
  | [(a, true); (c, true); (p, _)] =>
      String.eqb a "add -u" && Trace.isCommit c && String.eqb p "push"
  | _ => false
  end.

(** The line of the [catch] block of [sync]. *)
Definition syncErrorLine (e : Event) : bool :=
  match e with
  | EvConsole LError msg (Some _) => String.eqb msg "Error during sync:"
  | _ => false
  end.

(** [quotesEscaped prev s]: every double quote of [s] stands right after a
    backslash; [prev] tells whether the character before [s] is one. *)
Fixpoint quotesEscaped (prev : bool) (s : string) : bool :=
  match s with
  | EmptyString => true
  | String c r =>
      (negb (Ascii.eqb c JS.dquote) || prev)
      && quotesEscaped (Ascii.eqb c JS.backslash) r
  end.

Fixpoint countChar (x : ascii) (s : string) : nat :=
  match s with
  | EmptyString => 0
  | String c r => (if Ascii.eqb c x then 1 else 0) + countChar x r
  end.

(** Reading an escaped message back: a backslash that stands right
    before a double quote is dropped, everything else is kept. *)
Fixpoint dropEscapes (s : string) : string :=
  match s with
  | EmptyString => EmptyString
  | String c r =>
      match r with
      | EmptyString => s
      | String d r' =>
          if Ascii.eqb c JS.backslash && Ascii.eqb d JS.dquote
          then String d (dropEscapes r')
          else String c (dropEscapes r)
      end
  end.

(** Whether a status query found changes: it succeeded and printed
    something other than white space. *)
Definition statusFound (r : ExecResult) : bool :=
  match r with
  | Ok out => negb (JS.blank out)
  | Failed _ => false
  end.

End Shape.

(** ** The variant bound to [origin main] (src/sync.ts, first script)

    The command lines of this variant are literals passed to [execSync];
    all start with [git ], and [exec args] is [execSync("git " + args)],
    the event recording [args]. *)

Module OriginMain.

Section Variant.

Variable World : Type.
Variable execSync : string -> World -> ExecResult * World.
Variable toISOString : World -> string.

Local Notation "x <- m ;; k" := (bind World m (fun x => k))
  (at level 61, m at next level, right associativity).
Local Notation "m ;; k" := (bind World m (fun _ => k))
  (at level 61, right associativity).

Definition exec {R} (args : string) : Stmt World R string :=
  runGit World execSync args.

Definition exec_ {R} (args : string) : Stmt World R unit :=
  runGit_ World execSync args.

Definition hasLocalChanges_body : Stmt World bool Empty_set :=
  try_catch World
    (status <- exec "status --porcelain" ;;
     return_ World (Nat.ltb 0 (String.length (JS.trim status))))
    (fun _ => return_ World false).

Definition hasLocalChanges {R} : Stmt World R bool :=
  call World hasLocalChanges_body.

Definition hasRemoteChanges_body : Stmt World bool Empty_set :=
  try_catch World
    (exec_ "fetch origin" ;;
     localHead <- exec "rev-parse HEAD" ;;
     remoteHead <- exec "rev-parse @{u}" ;;
     return_ World (negb (String.eqb (JS.trim localHead) (JS.trim remoteHead))))
    (fun _ => return_ World false).

Definition hasRemoteChanges {R} : Stmt World R bool :=
  call World hasRemoteChanges_body.

Definition syncFromOrigin_body : Stmt World unit unit :=
  console_log World "Pulling changes from origin..." ;;
  hasLocal <- hasLocalChanges ;;
  when_ World hasLocal (exec_ "stash") ;;
  try_finally World
    (exec_ "pull --rebase origin main" ;;
     console_log World "✓ Pulled latest changes")
    (when_ World hasLocal (exec_ "stash pop")).

Definition syncFromOrigin {R} : Stmt World R unit :=
  call_void World syncFromOrigin_body.

(** [`commit -m "Automated commit at ${timestamp}"`] *)
Definition commitCmd (timestamp : string) : string :=
  "commit -m " ++ String JS.dquote ("Automated commit at " ++ timestamp)
               ++ String JS.dquote "".

Definition syncToOrigin_body : Stmt World unit unit :=
  exec_ "add ." ;;
  timestamp <- now World toISOString ;;
  exec_ (commitCmd timestamp) ;;
  exec_ "push origin main" ;;
  console_log World ("✓ Committed & pushed at " ++ timestamp).

Definition syncToOrigin {R} : Stmt World R unit :=
  call_void World syncToOrigin_body.

(** The [try] block of [sync]. *)
Definition cycle : Stmt World unit unit :=
  (diverged <- hasRemoteChanges ;;
   when_ World diverged syncFromOrigin) ;;
  dirty <- hasLocalChanges ;;
  when_ World dirty
    (console_log World "Local changes detected, pushing to origin..." ;;
     syncToOrigin).

Definition sync_body : Stmt World unit unit :=
  busy <- read_isSyncing World ;;
  when_ World busy
    (console_log World "Sync already in progress, skipping..." ;;
     return_ World tt) ;;
  set_isSyncing World true ;;
  try_finally World
    (try_catch World cycle
       (fun err => console_error World "Error during sync:" err))
    (set_isSyncing World false).

Definition sync {R} : Stmt World R unit := call_void World sync_body.

End Variant.

(** The commands of the two phases in this variant. *)
Definition pullPhaseCmd (cmd : string) : bool :=
  String.eqb cmd "fetch origin" || String.eqb cmd "stash"
  || String.eqb cmd "pull --rebase origin main" || String.eqb cmd "stash pop".

Definition pushPhaseCmd (cmd : string) : bool :=
  String.eqb cmd "add ." || Trace.isCommit cmd
  || String.eqb cmd "push origin main".

Definition shelvePullCmd (cmd : string) : bool :=
  String.eqb cmd "stash" || String.eqb cmd "pull --rebase origin main"
  || String.eqb cmd "stash pop".

(** Shelving and pulling in one cycle: none; a stash that failed; a pull
    alone; or a stash that succeeded, the pull, and the stash pop. *)
Definition pullShape (l : list (string * bool)) : bool :=
  match l with
  | [] => true
  | [(c, ok)] =>
      (String.eqb c "stash" && negb ok)
      || String.eqb c "pull --rebase origin main"
  | [(s, true); (p, _); (q, _)] =>
      String.eqb s "stash" && String.eqb p "pull --rebase origin main"
      && String.eqb q "stash pop"
  | _ => false
  end.

(** Staging, commit and push in one cycle: each is called only when the
    one before succeeded. *)
Definition pushShape (l : list (string * bool)) : bool :=
  match l with
  | [] => true
  | [(a, false)] => String.eqb a "add ."
  | [(a, true); (c, false)] => String.eqb a "add ." && Trace.isCommit c
  | [(a, true); (c, true); (p, _)] =>
      String.eqb a "add ." && Trace.isCommit c
      && String.eqb p "push origin main"
  | _ => false
  end.

End OriginMain.

(** ** The variant that only commits and pushes (src/sync.ts, second
    script) *)

Module PushOnly.

Section Variant.

Variable World : Type.
Variable execSync : string -> World -> ExecResult * World.
Variable toISOString : World -> string.

Local Notation "x <- m ;; k" := (bind World m (fun x => k))
  (at level 61, m at next level, right associativity).
Local Notation "m ;; k" := (bind World m (fun _ => k))
  (at level 61, right associativity).

Definition hasChanges_body : Stmt World bool Empty_set :=
  try_catch World
    (status <- OriginMain.exec World execSync "status --porcelain" ;;
     return_ World (Nat.ltb 0 (String.length (JS.trim status))))
    (fun _ => return_ World false).

Definition hasChanges {R} : Stmt World R bool := call World hasChanges_body.

Definition sync_body : Stmt World unit unit :=
  busy <- read_isSyncing World ;;
  when_ World busy
    (console_log World "Sync already in progress, skipping..." ;;
     return_ World tt) ;;
  changed <- hasChanges ;;
  when_ World (negb changed) (return_ World tt) ;;
  set_isSyncing World true ;;
  console_log World "Changes detected, syncing..." ;;
  try_finally World
    (try_catch World
       (OriginMain.exec_ World execSync "add ." ;;
        timestamp <- now World toISOString ;;
        OriginMain.exec_ World execSync (OriginMain.commitCmd timestamp) ;;
        OriginMain.exec_ World execSync "push" ;;
        console_log World ("✓ Committed & pushed at " ++ timestamp))
       (fun err => console_error World "Error running Git operations:" err))
    (set_isSyncing World false).

Definition sync {R} : Stmt World R unit := call_void World sync_body.

End Variant.

(** The calls of one invocation that found the lock free, given whether
    the status query found changes: when it did not, the status query
    alone; when it did, the status query, then staging, commit and push,
    each called only when the one before succeeded. *)
Definition callShapeFor (found : bool) (l : list (string * bool)) : bool :=
  match l with
  | [(q, _)] => String.eqb q "status --porcelain" && negb found
  | [(q, true); (a, false)] =>
      String.eqb q "status --porcelain" && String.eqb a "add ." && found
  | [(q, true); (a, true); (c, false)] =>
      String.eqb q "status --porcelain" && String.eqb a "add ."
      && Trace.isCommit c && found
  | [(q, true); (a, true); (c, true); (p, _)] =>
      String.eqb q "status --porcelain" && String.eqb a "add ."
      && Trace.isCommit c && String.eqb p "push" && found
  | _ => false
  end.

End PushOnly.

(** ** More scripted repositories *)

Module Fixture.

Definition nl : string := Mock.nl.

Definition stamp : string := "2024-05-01T10:00:00.000Z".

(** U+00A0, the no-break space, in UTF-8. *)
Definition nbsp : string := String (ascii_of_nat 194) (String (ascii_of_nat 160) "").

(** The status query prints only white space: a space, a no-break space
    and a line feed. *)
Definition blankStatus : Mock.World :=
  [ ("git status --porcelain", Ok (" " ++ nbsp ++ nl)) ].

(** The directory is not a repository: the upstream query fails. *)
Definition notARepository : Mock.World :=
  [ ("git rev-parse --abbrev-ref --symbolic-full-name @{u}",
     Failed "fatal: not a git repository (or any of the parent directories): .git") ].

(** Upstream level, working tree clean. *)
Definition cleanLevel : Mock.World :=
  app Mock.upstreamLevel [ ("git status --porcelain", Ok "") ].

(** Upstream level, one tracked file modified, everything succeeds. *)
Definition dirtyLevel : Mock.World :=
  app Mock.upstreamLevel
    [ ("git status --porcelain", Ok (" M notes.md" ++ nl));
      ("git add -u", Ok "");
      ("git status --porcelain", Ok ("M  notes.md" ++ nl));
      ("git " ++ commitCmd Mock.autoMessage, Ok "");
      ("git push", Ok "") ].

(** Upstream ahead, one tracked file modified, and the stash fails. *)
Definition stashFails : Mock.World :=
  app Mock.upstreamAhead
    [ ("git status --porcelain", Ok (" M notes.md" ++ nl));
      ("git stash", Failed "fatal: could not write index") ].

(** The push sub-procedure when the remote rejects the push. *)
Definition pushRejected : Mock.World :=
  [ ("git add -u", Ok "");
    ("git status --porcelain", Ok ("M  notes.md" ++ nl));
    ("git " ++ commitCmd Mock.autoMessage, Ok "");
    ("git push", Failed "! [rejected] main -> main (fetch first)") ].

(** The push sub-procedure when the index is locked. *)
Definition addFails : Mock.World :=
  [ ("git add -u", Failed "fatal: Unable to create index.lock") ].

(** The first variant: upstream ahead, a tracked file modified, the
    rebase stops on a conflict and the stash pop succeeds. *)
Definition originConflict : Mock.World :=
  [ ("git fetch origin", Ok "");
    ("git rev-parse HEAD", Ok ("1111111" ++ nl));
    ("git rev-parse @{u}", Ok ("2222222" ++ nl));
    ("git status --porcelain", Ok (" M notes.md" ++ nl));
    ("git stash", Ok "");
    ("git pull --rebase origin main", Failed Mock.conflict);
    ("git stash pop", Ok "") ].

(** The same, but the stash pop fails as well. *)
Definition originConflictTwice : Mock.World :=
  [ ("git fetch origin", Ok "");
    ("git rev-parse HEAD", Ok ("1111111" ++ nl));
    ("git rev-parse @{u}", Ok ("2222222" ++ nl));
    ("git status --porcelain", Ok (" M notes.md" ++ nl));
    ("git stash", Ok "");
    ("git pull --rebase origin main", Failed Mock.conflict);
    ("git stash pop", Failed "error: could not restore untracked files from stash") ].

(** The first variant: nothing to pull, a tracked file modified. *)
Definition originDirty : Mock.World :=
  [ ("git fetch origin", Ok "");
    ("git rev-parse HEAD", Ok ("1111111" ++ nl));
    ("git rev-parse @{u}", Ok ("1111111" ++ nl));
    ("git status --porcelain", Ok (" M notes.md" ++ nl));
    ("git add .", Ok "");
    ("git " ++ OriginMain.commitCmd stamp, Ok "");
    ("git push origin main", Ok "") ].

(** The second variant: a tracked file modified, everything succeeds. *)
Definition pushOnlyDirty : Mock.World :=
  [ ("git status --porcelain", Ok (" M notes.md" ++ nl));
    ("git add .", Ok "");
    ("git " ++ OriginMain.commitCmd stamp, Ok "");
    ("git push", Ok "") ].

(** The second variant: nothing to do. *)
Definition pushOnlyClean : Mock.World :=
  [ ("git status --porcelain", Ok "") ].

Definition originSync : Stmt Mock.World unit unit :=
  OriginMain.sync Mock.World Mock.execSync Mock.toISOString.
Definition originSyncFromOrigin : Stmt Mock.World unit unit :=
  OriginMain.syncFromOrigin Mock.World Mock.execSync.
Definition pushOnlySync : Stmt Mock.World unit unit :=
  PushOnly.sync Mock.World Mock.execSync Mock.toISOString.

End Fixture.

(** ** Read-only events *)

Module ReadOnly.

(** The commands of the queries: they read the repository, and [fetch]
    updates the remote-tracking refs only. *)
Definition queryCmd (cmd : string) : bool :=
  String.eqb cmd "status --porcelain" || String.eqb cmd Trace.upstreamQuery
  || String.eqb cmd "fetch" || String.eqb cmd "rev-parse HEAD"
  || String.eqb cmd "rev-parse @{u}".

(** A console line or a call of a query command. *)
Definition event (e : Event) : bool :=
  match e with
  | EvGit cmd _ => queryCmd cmd
  | EvConsole _ _ _ => true
  | EvSetSyncing _ => false
  end.

(** The same, or an assignment to [isSyncing]. *)
Definition eventOrLock (e : Event) : bool :=
  match e with
  | EvSetSyncing _ => true
  | _ => event e
  end.

End ReadOnly.

(** ** What reaches the console *)

Module Log.

(** The error objects passed to [console.error], in order. *)
Fixpoint loggedErrors (evs : list Event) : list Err :=
  match evs with
  | [] => []
  | EvConsole LError _ (Some e) :: rest => e :: loggedErrors rest
  | _ :: rest => loggedErrors rest
  end.

(** The errors of the failed calls of the commands in [p], in order. *)
Fixpoint failures (p : string -> bool) (evs : list Event) : list Err :=
  match evs with
  | [] => []
  | EvGit cmd (Failed e) :: rest =>
      if p cmd then e :: failures p rest else failures p rest
  | _ :: rest => failures p rest
  end.

(** The last element of a list, as a list of at most one element. *)
Definition lastOnly (l : list Err) : list Err :=
  match rev l with
  | [] => []
  | e :: _ => [e]
  end.


(** Every git call that failed has its error on the console. *)
Definition EveryFailureLogged (evs : list Event) : Prop :=
  forall cmd e,
    In (EvGit cmd (Failed e)) evs ->
    exists lvl msg, In (EvConsole lvl msg (Some e)) evs.

End Log.

Import Trace.

Section Properties.

Local Open Scope list_scope.

Variable World : Type.
Variable execSync : string -> World -> ExecResult * World.
Variable toISOString : World -> string.
Variable GIT_AUTO_MESSAGE : World -> option string.

Local Abbreviation hasLocalChanges := (@Script.hasLocalChanges World execSync unit).
Local Abbreviation getUpstreamRef := (@Script.getUpstreamRef World execSync unit).
Local Abbreviation hasRemoteChanges := (@Script.hasRemoteChanges World execSync unit).
Local Abbreviation syncFromOrigin := (@Script.syncFromOrigin World execSync unit).
Local Abbreviation syncToOrigin :=
  (@Script.syncToOrigin World execSync toISOString GIT_AUTO_MESSAGE unit).
Local Abbreviation pullStep := (@Script.pullStep World execSync unit).
Local Abbreviation pushStep :=
  (@Script.pushStep World execSync toISOString GIT_AUTO_MESSAGE unit).
Local Abbreviation cycle := (Script.cycle World execSync toISOString GIT_AUTO_MESSAGE).
Local Abbreviation sync := (@Script.sync World execSync toISOString GIT_AUTO_MESSAGE unit).
Local Abbreviation ticks := (Script.ticks World execSync toISOString GIT_AUTO_MESSAGE).

(** *** Unfolding and path exploration *)

Ltac unfold_functions :=
  unfold Script.sync, Script.sync_body, Script.cycle, Script.pullStep, Script.pushStep,
    Script.syncToOrigin, Script.syncToOrigin_body,
    Script.syncFromOrigin, Script.syncFromOrigin_body,
    Script.hasRemoteChanges, Script.hasRemoteChanges_body,
    Script.getUpstreamRef, Script.getUpstreamRef_body,
    Script.hasLocalChanges, Script.hasLocalChanges_body,
    runGit_, console_log, console_warn, console_error in *.

Ltac unfold_combinators :=
  unfold runGit, now, env_GIT_AUTO_MESSAGE, set_isSyncing, read_isSyncing,
    console, call, call_void, when_, try_finally, try_catch, return_, bind, pure,
    JS.truthy, JS.orNull in *.

Ltac unfold_script := unfold_functions; unfold_combinators.

(** One step of path exploration: split on the result of the next
    subprocess, or on the next condition the script tests. *)
Ltac split_path :=
  match goal with
  | |- context [execSync ?c ?w] =>
      let E := fresh "E" in
      destruct (execSync c w) as [[?out|?e] ?w] eqn:E
  | |- context [if ?b then _ else _] =>
      lazymatch b with
      | true => fail
      | false => fail
      | _ => let E := fresh "C" in destruct b eqn:E
      end
  end.

Ltac paths := cbn; repeat (split_path; cbn).

(** *** Confinement rules, one per statement form *)

Lemma confined_pure p R A (a : A) : confined p (pure World (R:=R) a).
Proof. intro st. split; reflexivity. Qed.

Lemma confined_return p R A (v : R) : confined p (return_ World (A:=A) v).
Proof. intro st. split; reflexivity. Qed.

Lemma confined_bind p R A B (m : Stmt World R A) (k : A -> Stmt World R B) :
  confined p m -> (forall a, confined p (k a)) -> confined p (bind World m k).
Proof.
  intros Hm Hk st. specialize (Hm st). revert Hm.
  unfold events, final, bind. destruct (m st) as [[[a | r | e] s1] ev1]; cbn; auto.
  intros [H1 H2]. specialize (Hk a s1). revert Hk. unfold events, final.
  destruct (k a s1) as [[c2 s2] ev2]; cbn. intros [H3 H4].
  rewrite forallb_app, H1, H3. split; [reflexivity | congruence].
Qed.

Lemma confined_try_catch p R A (b : Stmt World R A) (h : Err -> Stmt World R A) :
  confined p b -> (forall e, confined p (h e)) -> confined p (try_catch World b h).
Proof.
  intros Hb Hh st. specialize (Hb st). revert Hb.
  unfold events, final, try_catch. destruct (b st) as [[[a | r | e] s1] ev1]; cbn; auto.
  intros [H1 H2]. specialize (Hh e s1). revert Hh. unfold events, final.
  destruct (h e s1) as [[c2 s2] ev2]; cbn. intros [H3 H4].
  rewrite forallb_app, H1, H3. split; [reflexivity | congruence].
Qed.

Lemma confined_try_finally p R A (b : Stmt World R A) (f : Stmt World R unit) :
  confined p b -> confined p f -> confined p (try_finally World b f).
Proof.
  intros Hb Hf st. specialize (Hb st). revert Hb.
  unfold events, final, try_finally. destruct (b st) as [[c1 s1] ev1]; cbn.
  intros [H1 H2]. specialize (Hf s1). revert Hf. unfold events, final.
  destruct (f s1) as [[[a | r | e] s2] ev2]; cbn; intros [H3 H4];
    rewrite forallb_app, H1, H3; (split; [reflexivity | congruence]).
Qed.

Lemma confined_when p R (c : bool) (body : Stmt World R unit) :
  confined p body -> confined p (when_ World c body).
Proof. destruct c; cbn; auto using confined_pure. Qed.

Lemma confined_if p R A (c : bool) (m1 m2 : Stmt World R A) :
  confined p m1 -> confined p m2 -> confined p (if c then m1 else m2).
Proof. destruct c; auto. Qed.

Lemma confined_call p R R' (body : Stmt World R Empty_set) :
  confined p body -> confined p (call World (R':=R') body).
Proof.
  intros Hb st. specialize (Hb st). revert Hb.
  unfold events, final, call. destruct (body st) as [[[[] | r | e] s1] ev1]; cbn; auto.
Qed.

Lemma confined_call_void p R' (body : Stmt World unit unit) :
  confined p body -> confined p (call_void World (R':=R') body).
Proof.
  intros Hb st. specialize (Hb st). revert Hb.
  unfold events, final, call_void. destruct (body st) as [[[a | r | e] s1] ev1]; cbn; auto.
Qed.

Lemma confined_console p R lvl msg err :
  p (EvConsole lvl msg err) = true -> confined p (console World (R:=R) lvl msg err).
Proof. intros H st. cbn. rewrite H. auto. Qed.

Lemma confined_runGit p R cmd :
  (forall r, p (EvGit cmd r) = true) -> confined p (runGit World execSync (R:=R) cmd).
Proof.
  intros H st. unfold events, final, runGit.
  destruct (execSync ("git " ++ cmd)%string (world st)) as [[out | e] w]; cbn;
    rewrite H; auto.
Qed.

Lemma confined_now p R : confined p (now World toISOString (R:=R)).
Proof. intro st. split; reflexivity. Qed.

Lemma confined_env p R :
  confined p (env_GIT_AUTO_MESSAGE World GIT_AUTO_MESSAGE (R:=R)).
Proof. intro st. split; reflexivity. Qed.

(** A console line or a git call is confined as soon as [p] accepts the
    event, which evaluation decides. *)
Ltac confine :=
  unfold_functions;
  repeat first
    [ progress intros
    | apply confined_bind | apply confined_try_catch | apply confined_try_finally
    | apply confined_when | apply confined_call | apply confined_call_void
    | apply confined_if
    | apply confined_pure | apply confined_return | apply confined_now
    | apply confined_env
    | apply confined_console; reflexivity
    | apply confined_runGit; intros; reflexivity ].

(** *** The lock *)

(** Nothing inside the [try] block of [sync] touches [isSyncing]. *)
Lemma cycle_leaves_lock : confined notLockWrite cycle.
Proof. confine. Qed.

Lemma releases_app l1 l2 : releases (l1 ++ l2) = releases l1 + releases l2.
Proof.
  induction l1 as [| [c r | lvl msg err | [|]] l1 IH]; cbn; auto.
Qed.

Lemma releases_no_write l : forallb notLockWrite l = true -> releases l = 0.
Proof.
  induction l as [| [c r | lvl msg err | b] l IH]; cbn; auto. discriminate.
Qed.

(** The shape of a cycle that ran: the lock is taken first, released
    last, and not written in between; no exception leaves [sync]. *)
Lemma sync_cycle_shape (st : State World) :
  isSyncing st = false ->
  exists mid,
    events sync st = EvSetSyncing true :: mid ++ [EvSetSyncing false]
    /\ forallb notLockWrite mid = true
    /\ outcome sync st = Normal tt
    /\ isSyncing (final sync st) = false.
Proof.
  intro Hfree.
  unfold events, outcome, final, Script.sync, call_void, sync_body, bind,
    read_isSyncing, when_, set_isSyncing, try_finally, try_catch, pure,
    console_error, console.
  rewrite Hfree. cbn.
  destruct (cycle_leaves_lock (mkState true (world st))) as [Hev _].
  unfold events in Hev.
  destruct (cycle (mkState true (world st))) as [[[[] | [] | e] s1] ev1]; cbn in *.
  - exists ev1. auto.
  - exists ev1. auto.
  - exists (ev1 ++ [EvConsole LError "Error during sync:" (Some e)]).
    rewrite forallb_app, Hev. auto.
Qed.

(** *** The scheduler *)

Lemma sync_skip (st : State World) :
  isSyncing st = true ->
  sync st = (Normal tt, st, [EvConsole LLog "Sync already in progress, skipping..." None]).
Proof.
  intro Hheld.
  unfold Script.sync, call_void, sync_body, bind, read_isSyncing, when_,
    console_log, console, return_.
  rewrite Hheld. reflexivity.
Qed.

Lemma ticks_step (n : nat) (st : State World) :
  ticks (S n) st =
  (let '(c, s1, ev1) := ticks n (final sync st) in (c, s1, events sync st ++ ev1)).
Proof.
  assert (Hout : outcome sync st = Normal tt).
  { destruct (isSyncing st) eqn:Hl.
    - unfold outcome. rewrite (sync_skip st Hl). reflexivity.
    - destruct (sync_cycle_shape st Hl) as (mid & _ & _ & Hout & _). exact Hout. }
  revert Hout. unfold outcome, final, events. cbn [Script.ticks]. unfold bind.
  destruct (sync st) as [[c s1] ev1]. cbn. intros ->. reflexivity.
Qed.

Lemma replay_app (b : bool) (l1 l2 : list Event) :
  replay b (l1 ++ l2) =
  match replay b l1 with
  | Some b' => replay b' l2
  | None => None
  end.
Proof.
  revert b. induction l1 as [| [c r | lvl msg err | [|]] l1 IH]; intros [|]; cbn; auto.
Qed.

Lemma replay_no_write (l : list Event) :
  forallb notLockWrite l = true -> replay true l = Some true.
Proof.
  induction l as [| [c r | lvl msg err | b] l IH]; cbn; auto. discriminate.
Qed.

Lemma replay_cycle (st : State World) :
  isSyncing st = false -> replay false (events sync st) = Some false.
Proof.
  intro Hfree. destruct (sync_cycle_shape st Hfree) as (mid & Hev & Hmid & _ & _).
  rewrite Hev. cbn. rewrite replay_app, (replay_no_write _ Hmid). reflexivity.
Qed.

(** From a free lock, any number of ticks runs the cycles one after the
    other and leaves the lock free. *)
Lemma ticks_serial (n : nat) (st : State World) :
  isSyncing st = false ->
  replay false (events (ticks n) st) = Some false
  /\ isSyncing (final (ticks n) st) = false.
Proof.
  revert st. induction n as [| n IH]; intros st Hfree.
  - cbn. auto.
  - pose proof (replay_cycle st Hfree) as Hc.
    destruct (sync_cycle_shape st Hfree) as (mid & _ & _ & _ & Hfin).
    destruct (IH _ Hfin) as [Hrep Hlock].
    unfold events, final in *. rewrite ticks_step. unfold events, final.
    destruct (ticks n (snd (fst (sync st)))) as [[c s1] ev1]. cbn in *.
    rewrite replay_app, Hc. auto.
Qed.

(** While the lock is held, every tick is skipped. *)
Lemma ticks_skipped (n : nat) (st : State World) :
  isSyncing st = true ->
  gitCalls (events (ticks n) st) = [] /\ final (ticks n) st = st.
Proof.
  intro Hheld. induction n as [| n IH].
  - cbn. auto.
  - unfold events, final in *. rewrite ticks_step.
    unfold events, final. rewrite (sync_skip st Hheld). cbn.
    destruct (ticks n st) as [[c s1] ev1]. cbn in *. exact IH.
Qed.

(** C1. Lock release totality: a cycle that started (the lock was free
    when [sync] was entered) always returns to the scheduler, however it
    went, with [isSyncing] false, and [isSyncing = false] was executed
    exactly once, as the last action of the cycle; hence [isSyncing] is
    false after every invocation the scheduler makes from the start of the
    process. *)
Theorem sync_releases_lock (st : State World) (w : World) (n : nat) :
  isSyncing st = false ->
  outcome sync st = Normal tt
  /\ isSyncing (final sync st) = false
  /\ releases (events sync st) = 1
  /\ last (events sync st) (EvSetSyncing true) = EvSetSyncing false
  /\ isSyncing (final (ticks n) (initial w)) = false.
Proof.
  intro Hfree.
  destruct (sync_cycle_shape st Hfree) as (mid & Hev & Hmid & Hout & Hfin).
  repeat split; auto.
  - rewrite Hev. cbn. rewrite releases_app, (releases_no_write _ Hmid). reflexivity.
  - rewrite Hev. change (EvSetSyncing true :: mid ++ [EvSetSyncing false])
      with ((EvSetSyncing true :: mid) ++ [EvSetSyncing false]).
    apply last_last.
  - exact (proj2 (ticks_serial n (initial w) eq_refl)).
Qed.

(** C5. Mutual exclusion: an invocation of [sync] that finds the lock held
    logs the skip and returns at once, with no git call and the lock
    untouched, and so does every further tick while the lock stays held;
    started with the lock free, any number of ticks runs its cycles one at
    a time: no cycle begins, and no git call is made, while another cycle
    is in progress. *)
Theorem held_lock_skips_cycle (st : State World) (w : World) (n : nat) :
  isSyncing st = true ->
  sync st = (Normal tt, st, [EvConsole LLog "Sync already in progress, skipping..." None])
  /\ gitCalls (events sync st) = []
  /\ gitCalls (events (ticks n) st) = []
  /\ replay false (events (ticks n) (initial w)) = Some false.
Proof.
  intro Hheld. split; [| split; [| split]].
  - exact (sync_skip st Hheld).
  - unfold events. rewrite (sync_skip st Hheld). reflexivity.
  - exact (proj1 (ticks_skipped n st Hheld)).
  - exact (proj1 (ticks_serial n (initial w) eq_refl)).
Qed.

(** *** Failures *)

Lemma sync_outcome (st : State World) : outcome sync st = Normal tt.
Proof.
  destruct (isSyncing st) eqn:Hl.
  - unfold outcome. rewrite (sync_skip st Hl). reflexivity.
  - destruct (sync_cycle_shape st Hl) as (mid & _ & _ & Hout & _). exact Hout.
Qed.

Lemma ticks_outcome (n : nat) (st : State World) : outcome (ticks n) st = Normal tt.
Proof.
  revert st. induction n as [| n IH]; intro st; [reflexivity |].
  unfold outcome. rewrite ticks_step. specialize (IH (final sync st)).
  unfold outcome in IH. destruct (ticks n (final sync st)) as [[c s1] ev1]. exact IH.
Qed.

Lemma sync_failures_logged (st : State World) :
  failuresLogged (events sync st) = true.
Proof.
  destruct st as [[|] w].
  - unfold events. rewrite sync_skip by reflexivity. reflexivity.
  - unfold events. unfold_script.
    paths; rewrite ?String.eqb_refl; reflexivity.
Qed.

(** The errors on the console are the errors of the failed git calls
    other than the upstream query, one line each, in order. *)
Lemma sync_logged_errors (st : State World) :
  Log.loggedErrors (events sync st)
  = Log.failures (fun c => negb (String.eqb c upstreamQuery)) (events sync st).
Proof.
  destruct st as [[|] w].
  - unfold events. rewrite sync_skip by reflexivity. reflexivity.
  - pose (chk := fun evs : list Event =>
        Log.loggedErrors evs
        = Log.failures (fun c => negb (String.eqb c upstreamQuery)) evs).
    change (chk (events sync (mkState false w))).
    unfold events. unfold_script.
    paths; subst chk; reflexivity.
Qed.

(** C6, as amended.  No exception escapes [sync]: it always completes
    normally, and so does any number of ticks.  Every git call that failed
    during the cycle, other than the upstream query, is followed at once
    by a [console.error] line that carries its error, and these are the
    only errors on the console.  A failed upstream query is caught by
    [getUpstreamRef] without a word about the error: it is followed by the
    no-upstream warning, which does not carry it. *)
Theorem sync_never_throws (st : State World) (n : nat) :
  outcome sync st = Normal tt
  /\ failuresLogged (events sync st) = true
  /\ Log.loggedErrors (events sync st)
     = Log.failures (fun c => negb (String.eqb c upstreamQuery)) (events sync st)
  /\ outcome (ticks n) st = Normal tt.
Proof.
  split; [| split; [| split]].
  - apply sync_outcome.
  - apply sync_failures_logged.
  - apply sync_logged_errors.
  - apply ticks_outcome.
Qed.

(** *** The pull sub-procedure *)

(** C7. No spurious shelve: when [hasLocalChanges()] is false on entry to
    [syncFromOrigin] (the working tree is clean, or the status query
    failed), the run calls neither [git stash] nor [git stash pop]. *)
Theorem no_spurious_shelve (st : State World) :
  outcome hasLocalChanges st = Normal false ->
  forallb (notGit shelveCmd) (events syncFromOrigin st) = true.
Proof.
  destruct st as [l w]. unfold outcome, events. unfold_script.
  paths; intro H; try discriminate H; reflexivity.
Qed.

(** *** The unconfigured state *)

(** C8. No upstream: when [getUpstreamRef()] yields [null], the cycle is
    the upstream query, the warning and the release of the lock, and
    nothing else: no other git call is made. *)
Theorem no_upstream_ends_cycle (st : State World) :
  isSyncing st = false ->
  outcome getUpstreamRef st = Normal None ->
  outcome sync st = Normal tt
  /\ isSyncing (final sync st) = false
  /\ events sync st =
       [ EvSetSyncing true;
         EvGit upstreamQuery (fst (execSync ("git " ++ upstreamQuery)%string (world st)));
         noUpstreamWarning;
         EvSetSyncing false ]
  /\ gitCalls (events sync st) = [upstreamQuery].
Proof.
  destruct st as [l w]. intro Hfree. cbn in Hfree. subst l.
  unfold outcome, events, final, noUpstreamWarning, upstreamQuery. unfold_script. cbn.
  destruct (execSync _ w) as [[out | e] w1]; cbn.
  - split_path; cbn; intro H; try discriminate H. repeat split.
  - intros _. repeat split.
Qed.

(** *** Pull before push *)

Lemma phases_disjoint (cmd : string) :
  pullPhaseCmd cmd = true -> pushPhaseCmd cmd = false.
Proof.
  unfold pullPhaseCmd.
  destruct (String.eqb_spec cmd "fetch") as [-> |]; [reflexivity |].
  destruct (String.eqb_spec cmd "stash") as [-> |]; [reflexivity |].
  destruct (String.eqb_spec cmd "pull --rebase") as [-> |]; [reflexivity |].
  destruct (String.eqb_spec cmd "stash pop") as [-> |]; [reflexivity |].
  discriminate.
Qed.

Lemma forallb_nth {A} (p : A -> bool) (l : list A) (i : nat) (x : A) :
  forallb p l = true -> nth_error l i = Some x -> p x = true.
Proof.
  intros Hall Hnth. rewrite forallb_forall in Hall.
  apply Hall. eapply nth_error_In. exact Hnth.
Qed.

(** A list made of a part without push-phase calls followed by a part
    without pull-phase calls has its pull calls before its push calls. *)
Lemma PullBeforePush_app (l1 l2 : list Event) :
  forallb (notGit pushPhaseCmd) l1 = true ->
  forallb (notGit pullPhaseCmd) l2 = true ->
  PullBeforePush (l1 ++ l2).
Proof.
  intros H1 H2 i j ci ri cj rj Hi Hj Hpull Hpush.
  destruct (Nat.lt_ge_cases j (length l1)) as [Hjlt | Hjge].
  - rewrite nth_error_app1 in Hj by exact Hjlt.
    pose proof (forallb_nth _ _ _ _ H1 Hj) as Hno.
    unfold notGit in Hno. cbn in Hno. rewrite Hpush in Hno. discriminate.
  - destruct (Nat.lt_ge_cases i (length l1)) as [Hilt | Hige]; [lia |].
    rewrite nth_error_app2 in Hi by exact Hige.
    pose proof (forallb_nth _ _ _ _ H2 Hi) as Hno.
    unfold notGit in Hno. cbn in Hno. rewrite Hpull in Hno. discriminate.
Qed.

Lemma getUpstreamRef_no_push : confined (notGit pushPhaseCmd) getUpstreamRef.
Proof. confine. Qed.

Lemma pullStep_no_push : confined (notGit pushPhaseCmd) pullStep.
Proof. confine. Qed.

Lemma pushStep_no_pull : confined (notGit pullPhaseCmd) pushStep.
Proof. confine. Qed.

(** The [try] block is a part that makes no push-phase call followed by a
    part that makes no pull-phase call. *)
Lemma cycle_two_phases (st : State World) :
  exists l1 l2,
    events cycle st = l1 ++ l2
    /\ forallb (notGit pushPhaseCmd) l1 = true
    /\ forallb (notGit pullPhaseCmd) l2 = true.
Proof.
  unfold events, Script.cycle, bind.
  destruct (getUpstreamRef_no_push st) as [H0 _]. unfold events in H0.
  destruct (getUpstreamRef st) as [[[u | [] | e] s0] ev0]; cbn in *.
  - destruct (JS.truthy u); cbn.
    + destruct (pullStep_no_push s0) as [H1 _]. unfold events in H1.
      destruct (pullStep s0) as [[[[] | [] | e] s1] ev1]; cbn in *.
      * destruct (pushStep_no_pull s1) as [H2 _]. unfold events in H2.
        destruct (pushStep s1) as [[c2 s2] ev2]; cbn in *.
        exists (ev0 ++ ev1), ev2. rewrite <- app_assoc, forallb_app, H0, H1. auto.
      * exists (ev0 ++ ev1), []. rewrite app_nil_r, forallb_app, H0, H1. auto.
      * exists (ev0 ++ ev1), []. rewrite app_nil_r, forallb_app, H0, H1. auto.
    + exists ev0, [noUpstreamWarning]. auto.
  - exists ev0, []. rewrite app_nil_r. auto.
  - exists ev0, []. rewrite app_nil_r. auto.
Qed.

Lemma PullBeforePush_cycle (l1 l2 tail : list Event) :
  forallb (notGit pushPhaseCmd) l1 = true ->
  forallb (notGit pullPhaseCmd) l2 = true ->
  forallb (notGit pullPhaseCmd) tail = true ->
  PullBeforePush (EvSetSyncing true :: (l1 ++ l2) ++ tail).
Proof.
  intros H1 H2 H3. rewrite <- app_assoc.
  apply (PullBeforePush_app (EvSetSyncing true :: l1) (l2 ++ tail)).
  - exact H1.
  - rewrite forallb_app, H2. exact H3.
Qed.

(** C9. Pull-before-push ordering: in the events of any invocation of
    [sync], every pull-phase git call (fetch, stash, pull --rebase, stash
    pop) stands strictly before every push-phase git call (add -u, commit,
    push); a call and its outcome are one event, so the pull-phase calls
    have all completed or failed when the first push-phase call begins. *)
Theorem pull_calls_precede_push_calls (st : State World) :
  PullBeforePush (events sync st).
Proof.
  destruct (isSyncing st) eqn:Hl.
  - unfold events. rewrite (sync_skip st Hl). cbn.
    intros [| [| i]] j ci ri cj rj Hi; cbn in Hi; discriminate Hi.
  - unfold events, Script.sync, call_void, sync_body, bind,
      read_isSyncing, when_, set_isSyncing, try_finally, try_catch, pure,
      console_error, console.
    rewrite Hl. cbn.
    destruct (cycle_two_phases (mkState true (world st))) as (l1 & l2 & Hev & H1 & H2).
    unfold events in Hev.
    destruct (cycle (mkState true (world st))) as [[[[] | [] | e] s1] ev1];
      cbn in *; subst ev1.
    + apply PullBeforePush_cycle; auto.
    + apply PullBeforePush_cycle; auto.
    + rewrite <- (app_assoc (l1 ++ l2)). apply PullBeforePush_cycle; auto.
Qed.

(** *** The queries *)

Lemma hasLocalChanges_total (st : State World) :
  exists b,
    outcome hasLocalChanges st = Normal b
    /\ (existsb failedGit (events hasLocalChanges st) = true -> b = false).
Proof.
  destruct st as [l w]. unfold outcome, events. unfold_script.
  paths; eexists; (split; [reflexivity | intro H; try discriminate H; reflexivity]).
Qed.

Lemma hasRemoteChanges_total (st : State World) :
  exists b,
    outcome hasRemoteChanges st = Normal b
    /\ (existsb failedGit (events hasRemoteChanges st) = true -> b = false).
Proof.
  destruct st as [l w]. unfold outcome, events. unfold_script.
  paths; eexists; (split; [reflexivity | intro H; try discriminate H; reflexivity]).
Qed.

(** C10. The two queries are total and never throw; when a git call made
    by the query fails (the status query; the upstream resolution, the
    fetch or one of the two rev-parse calls) the query answers [false].
    In the cycle this answer skips the phase: after a failed divergence
    check [syncFromOrigin] is not entered, after a failed status check
    [syncToOrigin] is not entered, and the step completes normally, so the
    [catch] of [sync] is not reached. *)
Theorem queries_report_failure_as_false (st : State World) :
  (exists b,
      outcome hasLocalChanges st = Normal b
      /\ (existsb failedGit (events hasLocalChanges st) = true -> b = false))
  /\ (exists b,
      outcome hasRemoteChanges st = Normal b
      /\ (existsb failedGit (events hasRemoteChanges st) = true -> b = false))
  /\ (existsb failedGit (events hasRemoteChanges st) = true ->
      outcome pullStep st = Normal tt
      /\ events pullStep st = events hasRemoteChanges st)
  /\ (existsb failedGit (events hasLocalChanges st) = true ->
      outcome pushStep st = Normal tt
      /\ events pushStep st =
           events hasLocalChanges st ++ [EvConsole LLog "No local changes to sync." None]).
Proof.
  split; [apply hasLocalChanges_total |].
  split; [apply hasRemoteChanges_total |].
  split.
  - destruct (hasRemoteChanges_total st) as (b & Hout & Hfalse).
    intro Hfail. specialize (Hfalse Hfail). subst b.
    unfold outcome, events, Script.pullStep, bind in *.
    destruct (hasRemoteChanges st) as [[c s1] ev1]. cbn in *. subst c. cbn.
    rewrite app_nil_r. auto.
  - destruct (hasLocalChanges_total st) as (b & Hout & Hfalse).
    intro Hfail. specialize (Hfalse Hfail). subst b.
    unfold outcome, events, Script.pushStep, bind in *.
    destruct (hasLocalChanges st) as [[c s1] ev1]. cbn in *. subst c. cbn. auto.
Qed.

(** *** What a failed pull and an untracked file lead to *)

(** The only exception that leaves [syncFromOrigin] is a failed
    [git stash]: a failed pull is caught inside, and the caller goes on. *)
Lemma syncFromOrigin_outcome (st : State World) :
  match outcome syncFromOrigin st with
  | Normal _ => True
  | Return _ => False
  | Throw e => In (EvGit "stash" (Failed e)) (events syncFromOrigin st)
  end.
Proof.
  destruct st as [l w]. unfold outcome, events. unfold_script.
  paths; auto 10.
Qed.

(** Once [git stash] has succeeded, [git stash pop] is called, whether the
    pull succeeded or not: the [finally] block runs after the [return] of
    the [catch] block. *)
Lemma stash_always_popped (st : State World) :
  existsb (gitOk (String.eqb "stash")) (events syncFromOrigin st) = true ->
  existsb (isGit (String.eqb "stash pop")) (events syncFromOrigin st) = true.
Proof.
  destruct st as [l w]. unfold events. unfold_script.
  paths; intro H; try discriminate H; reflexivity.
Qed.

(** When the status query after [git add -u] finds nothing (or fails),
    [syncToOrigin] stops before the commit. *)
Lemma commit_skipped_when_status_clean (st : State World) :
  outcome hasLocalChanges (final (runGit_ World execSync (R:=unit) "add -u") st)
    = Normal false ->
  forallb (notGit isCommit) (events syncToOrigin st) = true
  /\ forallb (notGit (String.eqb "push")) (events syncToOrigin st) = true.
Proof.
  destruct st as [l w]. unfold outcome, events, final. unfold_script.
  paths; intro H; try discriminate H; split; reflexivity.
Qed.

(** When it finds something, the commit is called, staged or not. *)
Lemma commit_called_when_status_nonempty (st : State World) :
  outcome (runGit_ World execSync (R:=unit) "add -u") st = Normal tt ->
  outcome hasLocalChanges (final (runGit_ World execSync (R:=unit) "add -u") st)
    = Normal true ->
  existsb (isGit isCommit) (events syncToOrigin st) = true.
Proof.
  destruct st as [l w]. unfold outcome, events, final. unfold_script.
  paths; intros H1 H2; try discriminate H1; try discriminate H2; reflexivity.
Qed.

(** After a failed pull the cycle always reaches its second step. *)
Lemma failed_pull_reaches_step_two (st : State World) :
  existsb (gitFailed (String.eqb "pull --rebase")) (events sync st) = true ->
  existsb stepTwoLine (events sync st) = true.
Proof.
  destruct st as [[|] w].
  - unfold events. rewrite sync_skip by reflexivity. intro H. discriminate H.
  - pose (chk := fun evs : list Event =>
        existsb (gitFailed (String.eqb "pull --rebase")) evs = true ->
        existsb stepTwoLine evs = true).
    change (chk (events sync (mkState false w))).
    unfold events. unfold_script.
    paths; subst chk; cbn; intro H; try discriminate H; reflexivity.
Qed.

End Properties.

(** ** The script on concrete repositories *)

Example trim_status : JS.trim (" M notes.md" ++ Mock.nl) = "M notes.md".
Proof. reflexivity. Qed.

Example trim_blank : JS.trim (" " ++ Mock.nl) = "".
Proof. reflexivity. Qed.

Example commitCmd_escapes :
  commitCmd (String JS.dquote "wip")
  = "commit -m " ++ String JS.dquote (String JS.backslash (String JS.dquote "wip"))
    ++ String JS.dquote "".
Proof. reflexivity. Qed.


(** Scenario 5 of the specification: remote divergence with a local edit. *)
Example scenario_diverged_dirty :
  gitCalls (events Mock.sync (initial Mock.divergedDirty)) =
    [ upstreamQuery; upstreamQuery; "fetch"; "rev-parse HEAD"; "rev-parse @{u}";
      "status --porcelain"; "stash"; "pull --rebase"; "stash pop";
      "status --porcelain"; "add -u"; "status --porcelain";
      commitCmd Mock.autoMessage; "push" ].
Proof. reflexivity. Qed.

(** C2. A failed pull does not end the cycle.  The working tree is clean,
    the upstream is ahead and [git pull --rebase] stops on a conflict:
    [syncFromOrigin] logs the failure and returns normally, [sync] goes on
    to its second step, and since the status now lists the unmerged file
    the cycle stages, commits and pushes. *)
Theorem failed_pull_reaches_push_phase :
  events Mock.sync (initial Mock.cycleConflict) =
    [ EvSetSyncing true;
      EvGit upstreamQuery (Ok ("origin/main" ++ Mock.nl));
      EvGit upstreamQuery (Ok ("origin/main" ++ Mock.nl));
      EvGit "fetch" (Ok "");
      EvGit "rev-parse HEAD" (Ok ("1111111" ++ Mock.nl));
      EvGit "rev-parse @{u}" (Ok ("2222222" ++ Mock.nl));
      EvConsole LLog "Pulling changes from upstream..." None;
      EvGit "status --porcelain" (Ok "");
      EvGit "pull --rebase" (Failed Mock.conflict);
      EvConsole LError
        "Error pulling from upstream. Manual intervention may be required:"
        (Some Mock.conflict);
      EvGit "status --porcelain" (Ok ("UU notes.md" ++ Mock.nl));
      EvConsole LLog "Local changes detected, pushing to upstream..." None;
      EvConsole LLog "Adding changes..." None;
      EvGit "add -u" (Ok "");
      EvGit "status --porcelain" (Ok ("M  notes.md" ++ Mock.nl));
      EvConsole LLog "Committing changes..." None;
      EvGit (commitCmd Mock.autoMessage) (Ok "");
      EvConsole LLog "Pushing changes to upstream..." None;
      EvGit "push" (Failed "fatal: You are not currently on a branch.");
      EvConsole LError "Error pushing to remote. Resolve manually:"
        (Some "fatal: You are not currently on a branch.");
      EvSetSyncing false ]
  /\ existsb (gitFailed (String.eqb "pull --rebase"))
       (events Mock.sync (initial Mock.cycleConflict)) = true
  /\ filter pushPhaseCmd (gitCalls (events Mock.sync (initial Mock.cycleConflict))) =
       [ "add -u"; commitCmd Mock.autoMessage; "push" ].
Proof. repeat split. Qed.

(** C3. A failed pull does not keep the stash.  A tracked file is
    modified, so [syncFromOrigin] shelves it; [git pull --rebase] fails;
    the [catch] block logs and returns, and the [finally] block then runs
    [git stash pop]. *)
Theorem failed_pull_pops_stash :
  events Mock.syncFromOrigin (initial Mock.pullConflictDirty) =
    [ EvConsole LLog "Pulling changes from upstream..." None;
      EvGit "status --porcelain" (Ok (" M notes.md" ++ Mock.nl));
      EvConsole LLog "Stashing local changes..." None;
      EvGit "stash" (Ok "");
      EvGit "pull --rebase" (Failed Mock.conflict);
      EvConsole LError
        "Error pulling from upstream. Manual intervention may be required:"
        (Some Mock.conflict);
      EvConsole LLog "Restoring stashed changes..." None;
      EvGit "stash pop" (Ok "") ]
  /\ outcome Mock.syncFromOrigin (initial Mock.pullConflictDirty) = Normal tt.
Proof. repeat split. Qed.

(** C4. An untracked file leads to a commit with nothing staged.  The only
    change is a new file: [git add -u] stages nothing and the status lists
    the file as [??]; the list is not empty, so [hasLocalChanges()] is
    true, [git commit] is called, and git refuses it. *)
Theorem untracked_only_reaches_commit :
  Porcelain.untrackedOnly ("?? draft.md" ++ Mock.nl) = true
  /\ Porcelain.hasStaged ("?? draft.md" ++ Mock.nl) = false
  /\ events Mock.syncToOrigin (initial Mock.untrackedOnly) =
       [ EvConsole LLog "Adding changes..." None;
         EvGit "add -u" (Ok "");
         EvGit "status --porcelain" (Ok ("?? draft.md" ++ Mock.nl));
         EvConsole LLog "Committing changes..." None;
         EvGit (commitCmd Mock.autoMessage)
           (Failed "nothing added to commit but untracked files present") ]
  /\ outcome Mock.syncToOrigin (initial Mock.untrackedOnly) =
       Throw "nothing added to commit but untracked files present"
  /\ gitCalls (events Mock.sync (initial Mock.cycleUntracked)) =
       [ upstreamQuery; upstreamQuery; "fetch"; "rev-parse HEAD"; "rev-parse @{u}";
         "status --porcelain"; "add -u"; "status --porcelain";
         commitCmd Mock.autoMessage ].
Proof. repeat split. Qed.

(** C6, the claim as it was stated.  In a directory that is not a
    repository the upstream query fails; [getUpstreamRef] catches the
    exception and returns [null], [sync] prints the no-upstream warning,
    and the error of the failed call appears nowhere on the console. *)
Lemma upstream_failure_is_not_logged :
  ~ Log.EveryFailureLogged (events Mock.sync (initial Fixture.notARepository)).
Proof.
  intro Hall.
  destruct (Hall upstreamQuery
              "fatal: not a git repository (or any of the parent directories): .git")
    as (lvl & msg & Hin).
  - cbn. auto.
  - cbn in Hin. repeat (destruct Hin as [Hin | Hin]; [discriminate Hin |]).
    exact Hin.
Qed.

(** ** The general theorems at concrete repositories *)

Lemma sync_releases_lock_witness :
  isSyncing (initial Mock.divergedDirty) = false
  /\ (outcome Mock.sync (initial Mock.divergedDirty) = Normal tt
      /\ isSyncing (final Mock.sync (initial Mock.divergedDirty)) = false
      /\ releases (events Mock.sync (initial Mock.divergedDirty)) = 1
      /\ last (events Mock.sync (initial Mock.divergedDirty)) (EvSetSyncing true)
           = EvSetSyncing false
      /\ isSyncing (final (Mock.ticks 2) (initial Mock.cycleConflict)) = false).
Proof.
  split; [reflexivity |].
  apply (sync_releases_lock Mock.World Mock.execSync Mock.toISOString
           Mock.GIT_AUTO_MESSAGE (initial Mock.divergedDirty) Mock.cycleConflict 2).
  reflexivity.
Defined.

Lemma held_lock_skips_cycle_witness :
  isSyncing (mkState true Mock.divergedDirty) = true
  /\ (Mock.sync (mkState true Mock.divergedDirty) =
        (Normal tt, mkState true Mock.divergedDirty,
         [EvConsole LLog "Sync already in progress, skipping..." None])
      /\ gitCalls (events Mock.sync (mkState true Mock.divergedDirty)) = []
      /\ gitCalls (events (Mock.ticks 3) (mkState true Mock.divergedDirty)) = []
      /\ replay false (events (Mock.ticks 3) (initial Mock.divergedDirty)) = Some false).
Proof.
  split; [reflexivity |].
  apply (held_lock_skips_cycle Mock.World Mock.execSync Mock.toISOString
           Mock.GIT_AUTO_MESSAGE (mkState true Mock.divergedDirty) Mock.divergedDirty 3).
  reflexivity.
Defined.

Lemma no_spurious_shelve_witness :
  outcome Mock.hasLocalChanges (initial Mock.pullClean) = Normal false
  /\ forallb (notGit shelveCmd) (events Mock.syncFromOrigin (initial Mock.pullClean)) = true.
Proof.
  split; [reflexivity |].
  apply (no_spurious_shelve Mock.World Mock.execSync (initial Mock.pullClean)).
  reflexivity.
Defined.

Lemma no_upstream_ends_cycle_witness :
  isSyncing (initial Mock.unconfigured) = false
  /\ outcome Mock.getUpstreamRef (initial Mock.unconfigured) = Normal None
  /\ events Mock.sync (initial Mock.unconfigured) =
       [ EvSetSyncing true;
         EvGit upstreamQuery (Failed "fatal: no upstream configured for branch 'main'");
         noUpstreamWarning;
         EvSetSyncing false ].
Proof.
  split; [reflexivity |]. split; [reflexivity |].
  apply (no_upstream_ends_cycle Mock.World Mock.execSync Mock.toISOString
           Mock.GIT_AUTO_MESSAGE (initial Mock.unconfigured)); reflexivity.
Defined.

Lemma pull_calls_precede_push_calls_witness :
  nth_error (events Mock.sync (initial Mock.divergedDirty)) 13
    = Some (EvGit "stash pop" (Ok ""))
  /\ nth_error (events Mock.sync (initial Mock.divergedDirty)) 17
    = Some (EvGit "add -u" (Ok ""))
  /\ 13 < 17.
Proof.
  split; [reflexivity |]. split; [reflexivity |].
  apply (pull_calls_precede_push_calls Mock.World Mock.execSync Mock.toISOString
           Mock.GIT_AUTO_MESSAGE (initial Mock.divergedDirty)
           13 17 "stash pop" (Ok "") "add -u" (Ok "")); reflexivity.
Defined.

Lemma queries_report_failure_as_false_witness :
  existsb failedGit (events Mock.hasLocalChanges (initial Mock.statusFails)) = true
  /\ existsb failedGit (events Mock.hasRemoteChanges (initial Mock.fetchFails)) = true
  /\ (outcome Mock.pushStep (initial Mock.statusFails) = Normal tt
      /\ events Mock.pushStep (initial Mock.statusFails) =
           events Mock.hasLocalChanges (initial Mock.statusFails)
           ++ [EvConsole LLog "No local changes to sync." None])%list
  /\ (outcome Mock.pullStep (initial Mock.fetchFails) = Normal tt
      /\ events Mock.pullStep (initial Mock.fetchFails) =
           events Mock.hasRemoteChanges (initial Mock.fetchFails)).
Proof.
  split; [reflexivity |]. split; [reflexivity |]. split.
  - apply (proj2 (proj2 (proj2
      (queries_report_failure_as_false Mock.World Mock.execSync Mock.toISOString
         Mock.GIT_AUTO_MESSAGE (initial Mock.statusFails))))).
    reflexivity.
  - apply (proj1 (proj2 (proj2
      (queries_report_failure_as_false Mock.World Mock.execSync Mock.toISOString
         Mock.GIT_AUTO_MESSAGE (initial Mock.fetchFails))))).
    reflexivity.
Defined.


(** ** Further properties of the script *)

(** Path exploration for any embedding of [execSync]. *)
Ltac split_call exec :=
  match goal with
  | |- context [exec ?c ?w] =>
      destruct (exec c w) as [[?out | ?e] ?w]
  | |- context [String.length (JS.trim ?s)] =>
      destruct (String.length (JS.trim s))
  | |- context [if ?b then _ else _] =>
      lazymatch b with
      | true => fail
      | false => fail
      | _ => destruct b
      end
  end.

Ltac explore exec := cbn; repeat (split_call exec; cbn).

Ltac unfold_monad :=
  unfold runGit_, console_log, console_warn, console_error in *;
  unfold runGit, now, env_GIT_AUTO_MESSAGE, set_isSyncing, read_isSyncing,
    console, call, call_void, when_, try_finally, try_catch, return_, bind, pure,
    JS.truthy, JS.orNull in *.

Ltac unfold_upstream_script :=
  unfold Script.sync, Script.sync_body, Script.cycle, Script.pullStep, Script.pushStep,
    Script.syncToOrigin, Script.syncToOrigin_body,
    Script.syncFromOrigin, Script.syncFromOrigin_body,
    Script.hasRemoteChanges, Script.hasRemoteChanges_body,
    Script.getUpstreamRef, Script.getUpstreamRef_body,
    Script.hasLocalChanges, Script.hasLocalChanges_body in *;
  unfold_monad.

(** *** White space *)

(** Induction on strings where the hypothesis holds for every shorter
    string. *)
Lemma string_length_ind (P : string -> Prop) :
  (forall s, (forall t, String.length t < String.length s -> P t) -> P s) ->
  forall s, P s.
Proof.
  intros Hstep s.
  assert (H : forall n t, String.length t < n -> P t).
  { induction n as [| n IH]; intros t Ht; [lia |].
    apply Hstep. intros u Hu. apply IH. lia. }
  apply (H (S (String.length s))). lia.
Qed.

(** Trimming at the start keeps whether the string is blank, and leaves
    nothing of a blank string. *)
Lemma trimStart_blank (s : string) :
  JS.blank (JS.trimStart s) = JS.blank s
  /\ (JS.blank s = true -> JS.trimStart s = "").
Proof.
  induction s as [s IH] using string_length_ind.
  destruct s as [| c1 r1]; [cbn; auto |].
  cbn [JS.trimStart JS.blank].
  destruct (JS.is_space c1) eqn:H1.
  { apply IH. cbn. lia. }
  destruct r1 as [| c2 r2].
  { cbn [JS.blank]. rewrite H1. split; [reflexivity | discriminate]. }
  destruct (JS.is_space2 c1 c2) eqn:H2.
  { apply IH. cbn. lia. }
  destruct r2 as [| c3 r3].
  { cbn [JS.blank]. rewrite H1, H2. split; [reflexivity | discriminate]. }
  destruct (JS.is_space3 c1 c2 c3) eqn:H3.
  { apply IH. cbn. lia. }
  cbn [JS.blank]. rewrite H1, H2, H3. split; [reflexivity | discriminate].
Qed.

Lemma trimEnd_nonblank (s : string) :
  JS.blank s = false -> Nat.ltb 0 (String.length (JS.trimEnd s)) = true.
Proof.
  intro Hs. destruct s as [| c r]; [discriminate Hs |].
  cbn [JS.trimEnd]. rewrite Hs. reflexivity.
Qed.

(** [s.trim().length > 0] holds exactly when [s] is not made of white
    space only. *)
Lemma trim_nonempty (s : string) :
  Nat.ltb 0 (String.length (JS.trim s)) = negb (JS.blank s).
Proof.
  unfold JS.trim. destruct (trimStart_blank s) as [Hb Hempty].
  destruct (JS.blank s) eqn:Hs.
  - rewrite Hempty by reflexivity. reflexivity.
  - rewrite trimEnd_nonblank by exact Hb. reflexivity.
Qed.

Lemma trim_empty (s : string) :
  String.eqb (JS.trim s) "" = JS.blank s.
Proof.
  pose proof (trim_nonempty s) as H.
  destruct (JS.trim s); destruct (JS.blank s); cbn in *; congruence.
Qed.

Ltac unfold_upstream_functions :=
  unfold Script.sync, Script.sync_body, Script.cycle, Script.pullStep, Script.pushStep,
    Script.syncToOrigin, Script.syncToOrigin_body,
    Script.syncFromOrigin, Script.syncFromOrigin_body,
    Script.hasRemoteChanges, Script.hasRemoteChanges_body,
    Script.getUpstreamRef, Script.getUpstreamRef_body,
    Script.hasLocalChanges, Script.hasLocalChanges_body,
    runGit_, console_log, console_warn, console_error in *.

(** Confinement of a statement built from the statement forms, the
    leaves decided by evaluation. *)
Ltac confine_leaves :=
  repeat first
    [ progress intros
    | apply confined_bind | apply confined_try_catch | apply confined_try_finally
    | apply confined_when | apply confined_call | apply confined_call_void
    | apply confined_if
    | apply confined_pure | apply confined_return | apply confined_now
    | apply confined_env
    | apply confined_console; reflexivity
    | apply confined_runGit; intros; reflexivity ].

Section UpstreamScript.

Local Open Scope list_scope.

Variable World : Type.
Variable execSync : string -> World -> ExecResult * World.
Variable toISOString : World -> string.
Variable GIT_AUTO_MESSAGE : World -> option string.

Local Abbreviation hasLocalChanges := (@Script.hasLocalChanges World execSync unit).
Local Abbreviation getUpstreamRef := (@Script.getUpstreamRef World execSync unit).
Local Abbreviation hasRemoteChanges := (@Script.hasRemoteChanges World execSync unit).
Local Abbreviation syncFromOrigin := (@Script.syncFromOrigin World execSync unit).
Local Abbreviation syncToOrigin :=
  (@Script.syncToOrigin World execSync toISOString GIT_AUTO_MESSAGE unit).
Local Abbreviation pullStep := (@Script.pullStep World execSync unit).
Local Abbreviation pushStep :=
  (@Script.pushStep World execSync toISOString GIT_AUTO_MESSAGE unit).
Local Abbreviation cycle := (Script.cycle World execSync toISOString GIT_AUTO_MESSAGE).
Local Abbreviation sync := (@Script.sync World execSync toISOString GIT_AUTO_MESSAGE unit).

(** X1. [hasLocalChanges()] makes the status query and nothing else.
    When the query succeeds it prints nothing and answers whether the
    output holds anything other than white space (an output of blank
    lines counts as a clean tree); when the query fails it prints the
    error with [console.error] and answers [false]. *)
Theorem hasLocalChanges_iff_nonblank (st : State World) :
  hasLocalChanges st
  = match execSync "git status --porcelain" (world st) with
    | (Ok out, w) =>
        (Normal (negb (JS.blank out)), mkState (isSyncing st) w,
         [EvGit "status --porcelain" (Ok out)])
    | (Failed e, w) =>
        (Normal false, mkState (isSyncing st) w,
         [EvGit "status --porcelain" (Failed e);
          EvConsole LError "Failed to check local changes:" (Some e)])
    end.
Proof.
  unfold_upstream_script. cbn.
  destruct (execSync "git status --porcelain" (world st)) as [[out | e] w]; cbn;
    [| reflexivity].
  change (match String.length (JS.trim out) with 0 => false | S _ => true end)
    with (Nat.ltb 0 (String.length (JS.trim out))).
  rewrite trim_nonempty. reflexivity.
Qed.

(** X2. [getUpstreamRef()] never throws and makes exactly one git call;
    it answers [null] when the call fails or prints nothing but white
    space, and the trimmed output otherwise. *)
Theorem getUpstreamRef_answer (st : State World) :
  outcome getUpstreamRef st
  = Normal
      match fst (execSync ("git " ++ upstreamQuery)%string (world st)) with
      | Ok out => if JS.blank out then None else Some (JS.trim out)
      | Failed _ => None
      end
  /\ events getUpstreamRef st
     = [EvGit upstreamQuery (fst (execSync ("git " ++ upstreamQuery)%string (world st)))]
  /\ isSyncing (final getUpstreamRef st) = isSyncing st.
Proof.
  unfold outcome, events, final, upstreamQuery. unfold_upstream_script. cbn.
  destruct (execSync _ (world st)) as [[out | e] w]; cbn; [| auto].
  rewrite trim_empty. destruct (JS.blank out); cbn; auto.
Qed.

(** X3. Without an upstream [hasRemoteChanges()] stops after the upstream
    query: it warns and answers [false], and neither fetches nor compares
    heads. *)
Theorem hasRemoteChanges_without_upstream (st : State World) :
  outcome getUpstreamRef st = Normal None ->
  hasRemoteChanges st
  = (Normal false, final getUpstreamRef st,
     events getUpstreamRef st
     ++ [EvConsole LWarn
           "No upstream configured for current branch; skipping remote change check."
           None]).
Proof.
  destruct st as [l w]. unfold outcome, events, final. unfold_upstream_script. cbn.
  destruct (execSync _ w) as [[out | e] w1]; cbn.
  - split_call execSync; cbn; intro H; try discriminate H. reflexivity.
  - intros _. reflexivity.
Qed.

(** X4. The three queries only read: every git call they make is a
    status, rev-parse or fetch call, and they leave [isSyncing] as it
    is. *)
Theorem queries_read_only :
  confined ReadOnly.event hasLocalChanges
  /\ confined ReadOnly.event getUpstreamRef
  /\ confined ReadOnly.event hasRemoteChanges.
Proof.
  split; [| split]; unfold_upstream_functions; confine_leaves.
Qed.

(** X5. When [git stash] fails the cycle ends there: the exception
    leaves [syncFromOrigin], the [catch] of [sync] logs it, and neither
    the pull, the stash pop nor any push-phase call is made. *)
Theorem stash_failure_aborts_cycle (st : State World) :
  existsb (gitFailed (String.eqb "stash")) (events sync st) = true ->
  forallb
    (notGit (fun c => String.eqb c "pull --rebase" || String.eqb c "stash pop"
                      || pushPhaseCmd c))
    (events sync st) = true
  /\ existsb Shape.syncErrorLine (events sync st) = true.
Proof.
  destruct st as [[|] w].
  - unfold events. rewrite sync_skip by reflexivity. intro H. discriminate H.
  - pose (chk := fun evs : list Event =>
        existsb (gitFailed (String.eqb "stash")) evs = true ->
        forallb
          (notGit (fun c => String.eqb c "pull --rebase" || String.eqb c "stash pop"
                            || pushPhaseCmd c)) evs = true
        /\ existsb Shape.syncErrorLine evs = true).
    change (chk (events sync (mkState false w))).
    unfold events. unfold_upstream_script.
    explore execSync; subst chk; cbn; intro H; try discriminate H; split; reflexivity.
Qed.

(** X6. The only exceptions that leave [syncToOrigin] are a failed
    [git add -u] and a failed [git commit], and the failed call is then
    the last thing it did; a failed push is caught and logged inside, and
    [syncToOrigin] completes normally. *)
Theorem syncToOrigin_failures (st : State World) :
  match outcome syncToOrigin st with
  | Normal _ =>
      forall e c, last (events syncToOrigin st) (EvSetSyncing true)
                  <> EvGit c (Failed e)
  | Return _ => False
  | Throw e =>
      exists c,
        last (events syncToOrigin st) (EvSetSyncing true) = EvGit c (Failed e)
        /\ (c = "add -u" \/ isCommit c = true)
  end
  /\ (existsb (gitFailed (String.eqb "push")) (events syncToOrigin st) = true ->
      outcome syncToOrigin st = Normal tt
      /\ exists e,
           last (events syncToOrigin st) (EvSetSyncing true)
           = EvConsole LError "Error pushing to remote. Resolve manually:" (Some e)).
Proof.
  destruct st as [l w]. unfold outcome, events. unfold_upstream_script.
  explore execSync; (split; [| intro H; try discriminate H]);
    try (intros; discriminate); eauto 6.
Qed.

(** X7. Staging, commit and push in one cycle: each is called at most
    once, the commit only after a staging that succeeded, the push only
    after a commit that succeeded. *)
Theorem push_phase_shape (st : State World) :
  Shape.pushShape (Shape.outcomes pushPhaseCmd (events sync st)) = true.
Proof.
  destruct st as [[|] w].
  - unfold events. rewrite sync_skip by reflexivity. reflexivity.
  - unfold events. unfold_upstream_script.
    explore execSync; reflexivity.
Qed.

(** X8. Shelving and pulling in one cycle: at most one stash, one pull
    and one stash pop; the pull is not attempted when the stash failed;
    the stash pop is called exactly when the stash succeeded, whatever the
    pull did. *)
Theorem pull_phase_shape (st : State World) :
  Shape.pullShape (Shape.outcomes Shape.shelvePullCmd (events sync st)) = true.
Proof.
  destruct st as [[|] w].
  - unfold events. rewrite sync_skip by reflexivity. reflexivity.
  - unfold events. unfold_upstream_script.
    explore execSync; reflexivity.
Qed.

(** *** How the steps of a cycle compose *)

(** A cycle that started is the lock, the [try] block, possibly the line
    of the [catch] block, and the release. *)
Lemma sync_events_free (st : State World) :
  isSyncing st = false ->
  exists tail,
    events sync st
    = EvSetSyncing true :: events cycle (mkState true (world st)) ++ tail
    /\ (tail = [EvSetSyncing false]
        \/ exists e,
             tail = [EvConsole LError "Error during sync:" (Some e);
                     EvSetSyncing false]).
Proof.
  intro Hfree.
  unfold events, Script.sync, call_void, sync_body, bind,
    read_isSyncing, when_, set_isSyncing, try_finally, try_catch, pure,
    console_error, console.
  rewrite Hfree. cbn.
  destruct (cycle (mkState true (world st))) as [[[[] | [] | e] s1] ev1]; cbn.
  - exists [EvSetSyncing false]. auto.
  - exists [EvSetSyncing false]. auto.
  - exists [EvConsole LError "Error during sync:" (Some e); EvSetSyncing false].
    rewrite <- app_assoc. split; [reflexivity | eauto].
Qed.

Lemma forallb_sync_free (p : Event -> bool) (st : State World) :
  isSyncing st = false ->
  (forall b, p (EvSetSyncing b) = true) ->
  (forall lvl msg err, p (EvConsole lvl msg err) = true) ->
  forallb p (events cycle (mkState true (world st))) = true ->
  forallb p (events sync st) = true.
Proof.
  intros Hfree Hlock Hcon Hcycle.
  destruct (sync_events_free st Hfree) as (tail & -> & [-> | [e ->]]); cbn;
    rewrite Hlock, forallb_app, Hcycle; cbn; rewrite ?Hcon, ?Hlock; reflexivity.
Qed.

Lemma getUpstreamRef_confined (p : Event -> bool) :
  (forall r, p (EvGit upstreamQuery r) = true) ->
  confined p getUpstreamRef.
Proof.
  intro Hp. unfold_upstream_functions.
  apply confined_call, confined_try_catch; intros.
  - apply confined_bind; intros; [apply confined_runGit, Hp | apply confined_return].
  - apply confined_return.
Qed.

Lemma pushStep_no_shelve : confined (notGit Shape.shelvePullCmd) pushStep.
Proof. unfold_upstream_functions. confine_leaves. Qed.

Lemma hasRemoteChanges_no_shelve :
  confined (notGit Shape.shelvePullCmd) hasRemoteChanges.
Proof. unfold_upstream_functions. confine_leaves. Qed.

Lemma cycle_without_divergence (s0 : State World) :
  outcome hasRemoteChanges (final getUpstreamRef s0) = Normal false ->
  forallb (notGit Shape.shelvePullCmd) (events cycle s0) = true.
Proof.
  unfold outcome, final, events, Script.cycle, Script.pullStep, bind.
  destruct (getUpstreamRef_confined (notGit Shape.shelvePullCmd) (fun _ => eq_refl) s0)
    as [H0 _]. unfold events in H0.
  destruct (getUpstreamRef s0) as [[[u | [] | e] s1] ev0]; cbn in *; auto.
  destruct (JS.truthy u); cbn.
  - destruct (hasRemoteChanges_no_shelve s1) as [H1 _]. unfold events in H1.
    destruct (hasRemoteChanges s1) as [[c1 s2] ev1]; cbn in *.
    intros ->. cbn.
    destruct (pushStep_no_shelve s2) as [H2 _]. unfold events in H2.
    destruct (pushStep s2) as [[c2 s3] ev2]; cbn in *.
    rewrite !forallb_app, H0, H1, H2. reflexivity.
  - intros _. rewrite forallb_app, H0. reflexivity.
Qed.

(** X9. When the divergence check answers [false] (the heads agree, or
    the check failed), the cycle calls neither [git stash] nor
    [git pull --rebase] nor [git stash pop]. *)
Theorem no_divergence_skips_pull (st : State World) :
  isSyncing st = false ->
  outcome hasRemoteChanges (final getUpstreamRef (mkState true (world st)))
    = Normal false ->
  forallb (notGit Shape.shelvePullCmd) (events sync st) = true.
Proof.
  intros Hfree Hdiv.
  apply forallb_sync_free; auto.
  apply cycle_without_divergence. exact Hdiv.
Qed.

Lemma queries_confined_lock :
  confined ReadOnly.eventOrLock hasLocalChanges
  /\ confined ReadOnly.eventOrLock getUpstreamRef
  /\ confined ReadOnly.eventOrLock hasRemoteChanges.
Proof.
  split; [| split]; unfold_upstream_functions; confine_leaves.
Qed.

Lemma cycle_clean (s0 : State World) :
  outcome hasRemoteChanges (final getUpstreamRef s0) = Normal false ->
  outcome hasLocalChanges (final hasRemoteChanges (final getUpstreamRef s0))
    = Normal false ->
  forallb ReadOnly.eventOrLock (events cycle s0) = true.
Proof.
  destruct queries_confined_lock as (HL & HU & HR).
  unfold outcome, final, events, Script.cycle, Script.pullStep, Script.pushStep, bind.
  destruct (HU s0) as [H0 _]. unfold events in H0.
  destruct (getUpstreamRef s0) as [[[u | [] | e] s1] ev0]; cbn in *; auto.
  destruct (JS.truthy u); cbn.
  - destruct (HR s1) as [H1 _]. unfold events in H1.
    destruct (hasRemoteChanges s1) as [[c1 s2] ev1]; cbn in *.
    intros ->. cbn.
    destruct (HL s2) as [H2 _]. unfold events in H2.
    destruct (hasLocalChanges s2) as [[c2 s3] ev2]; cbn in *.
    intros ->. cbn.
    rewrite !forallb_app, H0, H1, H2. reflexivity.
  - intros _ _. rewrite forallb_app, H0. reflexivity.
Qed.

(** X10. A cycle whose divergence check and whose status check both
    answer [false] only reads: apart from the lock and the console, its
    events are status, rev-parse and fetch calls; nothing is shelved,
    pulled, staged, committed or pushed. *)
Theorem clean_cycle_reads_only (st : State World) :
  isSyncing st = false ->
  outcome hasRemoteChanges (final getUpstreamRef (mkState true (world st)))
    = Normal false ->
  outcome hasLocalChanges
    (final hasRemoteChanges (final getUpstreamRef (mkState true (world st))))
    = Normal false ->
  forallb ReadOnly.eventOrLock (events sync st) = true
  /\ forallb (notGit Shape.mutatingCmd) (events sync st) = true.
Proof.
  intros Hfree Hdiv Hclean.
  assert (Hread : forallb ReadOnly.eventOrLock (events sync st) = true).
  { apply forallb_sync_free; auto. apply cycle_clean; assumption. }
  split; [exact Hread |].
  rewrite forallb_forall in *. intros ev Hin. specialize (Hread ev Hin).
  destruct ev as [cmd r | lvl msg err | b]; try reflexivity.
  cbn in Hread. unfold notGit. cbn. unfold ReadOnly.queryCmd in Hread.
  repeat (apply orb_prop in Hread; destruct Hread as [Hread | Hread]);
    apply String.eqb_eq in Hread; subst cmd; reflexivity.
Qed.

End UpstreamScript.

(** *** The commit message *)

Lemma quotesEscaped_escapeQuotes (prev : bool) (s : string) :
  Shape.quotesEscaped prev (JS.escapeQuotes s) = true.
Proof.
  revert prev. induction s as [| c s IH]; intro prev; [reflexivity |].
  cbn [JS.escapeQuotes]. destruct (Ascii.eqb c JS.dquote) eqn:Hc.
  - cbn [Shape.quotesEscaped]. rewrite IH.
    destruct prev; reflexivity.
  - cbn [Shape.quotesEscaped]. rewrite Hc, IH. reflexivity.
Qed.

Lemma escapeQuotes_head (s : string) :
  match JS.escapeQuotes s with
  | EmptyString => s = EmptyString
  | String d _ => Ascii.eqb d JS.dquote = false
  end.
Proof.
  destruct s as [| c s]; [reflexivity |].
  cbn [JS.escapeQuotes]. destruct (Ascii.eqb c JS.dquote) eqn:Hc; [reflexivity | exact Hc].
Qed.

(** Dropping the backslashes that stand before a double quote gives the
    message back. *)
Lemma dropEscapes_escapeQuotes (s : string) :
  Shape.dropEscapes (JS.escapeQuotes s) = s.
Proof.
  induction s as [| c s IH]; [reflexivity |].
  cbn [JS.escapeQuotes]. destruct (Ascii.eqb c JS.dquote) eqn:Hc.
  - apply Ascii.eqb_eq in Hc. subst c.
    cbn [Shape.dropEscapes].
    change (Ascii.eqb JS.backslash JS.backslash) with true.
    change (Ascii.eqb JS.dquote JS.dquote) with true.
    cbn [andb]. rewrite IH. reflexivity.
  - cbn [Shape.dropEscapes].
    pose proof (escapeQuotes_head s) as Hhead.
    destruct (JS.escapeQuotes s) as [| d r] eqn:Hesc.
    + subst s. reflexivity.
    + rewrite Hhead, andb_false_r. rewrite IH. reflexivity.
Qed.

(** X11. In the escaped commit message every double quote stands right
    after a backslash that the escaping added, and nothing else is
    changed: dropping the backslashes that stand before a double quote
    gives the message back, so two messages never escape to the same
    text; the result is longer by one backslash per double quote, and a
    backslash of the message is not doubled. *)
Theorem escapeQuotes_escapes_quotes (message : string) :
  Shape.quotesEscaped false (JS.escapeQuotes message) = true
  /\ Shape.dropEscapes (JS.escapeQuotes message) = message
  /\ (forall other, JS.escapeQuotes other = JS.escapeQuotes message -> other = message)
  /\ String.length (JS.escapeQuotes message)
     = String.length message + Shape.countChar JS.dquote message
  /\ Shape.countChar JS.backslash (JS.escapeQuotes message)
     = Shape.countChar JS.backslash message + Shape.countChar JS.dquote message
  /\ Shape.countChar JS.dquote (JS.escapeQuotes message)
     = Shape.countChar JS.dquote message.
Proof.
  split; [apply quotesEscaped_escapeQuotes |].
  split; [apply dropEscapes_escapeQuotes |].
  split.
  { intros other Heq.
    rewrite <- (dropEscapes_escapeQuotes other), Heq.
    apply dropEscapes_escapeQuotes. }
  induction message as [| c s (IH1 & IH2 & IH3)]; [cbn; auto |].
  cbn [JS.escapeQuotes Shape.countChar String.length].
  destruct (Ascii.eqb c JS.dquote) eqn:Hc.
  - apply Ascii.eqb_eq in Hc. subst c.
    cbn [Shape.countChar String.length]. rewrite IH1, IH2, IH3.
    change (Ascii.eqb JS.backslash JS.backslash) with true.
    change (Ascii.eqb JS.dquote JS.backslash) with false.
    change (Ascii.eqb JS.backslash JS.dquote) with false.
    change (Ascii.eqb JS.dquote JS.dquote) with true.
    repeat split; lia.
  - cbn [Shape.countChar String.length]. rewrite Hc, IH1, IH2, IH3.
    repeat split; lia.
Qed.


(** ** The variant bound to [origin main] *)

Ltac unfold_origin_script :=
  unfold OriginMain.sync, OriginMain.sync_body, OriginMain.cycle,
    OriginMain.syncToOrigin, OriginMain.syncToOrigin_body,
    OriginMain.syncFromOrigin, OriginMain.syncFromOrigin_body,
    OriginMain.hasRemoteChanges, OriginMain.hasRemoteChanges_body,
    OriginMain.hasLocalChanges, OriginMain.hasLocalChanges_body,
    PushOnly.sync, PushOnly.sync_body, PushOnly.hasChanges, PushOnly.hasChanges_body,
    OriginMain.exec_, OriginMain.exec in *;
  unfold_monad.

Section OriginMainScript.

Local Open Scope list_scope.

Variable World : Type.
Variable execSync : string -> World -> ExecResult * World.
Variable toISOString : World -> string.

Local Abbreviation hasLocalChanges := (@OriginMain.hasLocalChanges World execSync unit).
Local Abbreviation hasRemoteChanges := (@OriginMain.hasRemoteChanges World execSync unit).
Local Abbreviation syncFromOrigin := (@OriginMain.syncFromOrigin World execSync unit).
Local Abbreviation sync := (@OriginMain.sync World execSync toISOString unit).

(** X13. Lock release in the first variant: a cycle that started returns
    normally with [isSyncing] false, released exactly once, whatever
    failed in between. *)
Theorem origin_sync_releases_lock (st : State World) :
  isSyncing st = false ->
  outcome sync st = Normal tt
  /\ isSyncing (final sync st) = false
  /\ releases (events sync st) = 1.
Proof.
  destruct st as [l w]. cbn. intros ->.
  unfold outcome, events, final. unfold_origin_script.
  explore execSync; repeat split.
Qed.

(** X14. In the first variant a failed pull ends the cycle: the exception
    reaches the [catch] of [sync], which logs it, and no push-phase call
    (add, commit, push) is made. *)
Theorem origin_failed_pull_skips_push (st : State World) :
  existsb (gitFailed (String.eqb "pull --rebase origin main")) (events sync st) = true ->
  forallb (notGit OriginMain.pushPhaseCmd) (events sync st) = true
  /\ existsb Shape.syncErrorLine (events sync st) = true.
Proof.
  pose (chk := fun evs : list Event =>
      existsb (gitFailed (String.eqb "pull --rebase origin main")) evs = true ->
      forallb (notGit OriginMain.pushPhaseCmd) evs = true
      /\ existsb Shape.syncErrorLine evs = true).
  change (chk (events sync st)).
  destruct st as [l w]. unfold events. unfold_origin_script.
  destruct l; explore execSync; subst chk; cbn; intro H; try discriminate H;
    split; reflexivity.
Qed.

(** X15. Shelving and pulling in one cycle of the first variant: the
    pull is not attempted when the stash failed, and the stash pop is
    called exactly when the stash succeeded, also after a failed pull. *)
Theorem origin_pull_phase_shape (st : State World) :
  OriginMain.pullShape
    (Shape.outcomes OriginMain.shelvePullCmd (events sync st)) = true.
Proof.
  destruct st as [l w]. unfold events. unfold_origin_script.
  destruct l; explore execSync; reflexivity.
Qed.

(** X16. Staging, commit and push in one cycle of the first variant:
    each at most once and only after the one before succeeded; a staging
    that succeeded is always followed by the commit call, there is no
    check in between. *)
Theorem origin_push_phase_shape (st : State World) :
  OriginMain.pushShape
    (Shape.outcomes OriginMain.pushPhaseCmd (events sync st)) = true.
Proof.
  destruct st as [l w]. unfold events. unfold_origin_script.
  destruct l; explore execSync; reflexivity.
Qed.

(** X17. What the first variant logs: at most one error per cycle, the
    error of the last call that failed among stash, pull, stash pop, add,
    commit and push.  When the pull and the stash pop both fail, the
    error of the pull is not logged; a failed status, fetch or rev-parse
    is never logged. *)
Theorem origin_logs_last_failure (st : State World) :
  Log.loggedErrors (events sync st)
  = Log.lastOnly
      (Log.failures
         (fun c => OriginMain.shelvePullCmd c || OriginMain.pushPhaseCmd c)
         (events sync st)).
Proof.
  destruct st as [l w]. unfold events. unfold_origin_script.
  destruct l; explore execSync; reflexivity.
Qed.


End OriginMainScript.

(** ** The variant that only commits and pushes *)

Section PushOnlyScript.

Local Open Scope list_scope.

Variable World : Type.
Variable execSync : string -> World -> ExecResult * World.
Variable toISOString : World -> string.

Local Abbreviation hasChanges := (@PushOnly.hasChanges World execSync unit).
Local Abbreviation sync := (@PushOnly.sync World execSync toISOString unit).

(** X19. The calls of one invocation of the second variant.  With the
    lock held there is none.  With the lock free the status query is
    always made; when it fails or prints only white space nothing else is
    called; when it prints anything else the staging is called, then the
    commit and the push, each once and only after the one before
    succeeded. *)
Theorem pushonly_call_shape (st : State World) :
  (isSyncing st = true -> gitCalls (events sync st) = [])
  /\ (isSyncing st = false ->
      PushOnly.callShapeFor
        (Shape.statusFound (fst (execSync "git status --porcelain" (world st))))
        (Shape.outcomes (fun _ => true) (events sync st)) = true).
Proof.
  destruct st as [l w]. unfold events. unfold_origin_script. cbn.
  split; intro Hl; subst l; cbn; [reflexivity |].
  destruct (execSync "git status --porcelain" w) as [[out | e] w1]; cbn;
    [| reflexivity].
  pose proof (trim_nonempty out) as Hfound.
  destruct (String.length (JS.trim out)); cbn in Hfound;
    apply (f_equal negb) in Hfound; rewrite negb_involutive in Hfound; cbn in Hfound;
    rewrite <- Hfound.
  - reflexivity.
  - explore execSync; reflexivity.
Qed.

(** X20. The lock in the second variant: [sync] never throws; when the
    status query finds nothing (or fails) the invocation is that query and
    nothing else, the lock is not taken; when it is taken it is released
    exactly once before [sync] returns, and an error met in between is
    logged. *)
Theorem pushonly_sync_lock (st : State World) :
  isSyncing st = false ->
  outcome sync st = Normal tt
  /\ isSyncing (final sync st) = false
  /\ (outcome hasChanges st = Normal false -> sync st = (Normal tt, final hasChanges st, events hasChanges st))
  /\ (outcome hasChanges st = Normal true ->
      releases (events sync st) = 1
      /\ Log.loggedErrors (events sync st)
         = Log.failures (fun c => negb (String.eqb c "status --porcelain"))
             (events sync st)).
Proof.
  destruct st as [l w]. cbn. intros ->.
  unfold outcome, events, final. unfold_origin_script.
  explore execSync;
    (split; [reflexivity |
     split; [reflexivity |
     split; [intro H; try discriminate H; reflexivity |
             intro H; try discriminate H; split; reflexivity]]]).
Qed.

End PushOnlyScript.

(** ** The further properties at concrete repositories *)

Example trim_nbsp :
  JS.trim (Fixture.nbsp ++ " origin/x" ++ Fixture.nbsp ++ Fixture.nl) = "origin/x".
Proof. reflexivity. Qed.

Lemma hasLocalChanges_iff_nonblank_witness :
  Mock.hasLocalChanges (initial Fixture.blankStatus)
  = (Normal false, mkState false [],
     [EvGit "status --porcelain" (Ok (" " ++ Fixture.nbsp ++ Fixture.nl))])
  /\ Mock.hasLocalChanges (initial Mock.statusFails)
     = (Normal false, mkState false [],
        [EvGit "status --porcelain" (Failed "fatal: not a git repository");
         EvConsole LError "Failed to check local changes:"
           (Some "fatal: not a git repository")]).
Proof.
  split.
  - apply (hasLocalChanges_iff_nonblank Mock.World Mock.execSync
             (initial Fixture.blankStatus)).
  - apply (hasLocalChanges_iff_nonblank Mock.World Mock.execSync
             (initial Mock.statusFails)).
Defined.

Lemma hasRemoteChanges_without_upstream_witness :
  outcome Mock.getUpstreamRef (initial Mock.unconfigured) = Normal None
  /\ Mock.hasRemoteChanges (initial Mock.unconfigured)
     = (Normal false, final Mock.getUpstreamRef (initial Mock.unconfigured),
        (events Mock.getUpstreamRef (initial Mock.unconfigured)
         ++ [EvConsole LWarn
               "No upstream configured for current branch; skipping remote change check."
               None])%list).
Proof.
  split; [reflexivity |].
  apply (hasRemoteChanges_without_upstream Mock.World Mock.execSync
           (initial Mock.unconfigured)).
  reflexivity.
Defined.

Lemma stash_failure_aborts_cycle_witness :
  existsb (gitFailed (String.eqb "stash")) (events Mock.sync (initial Fixture.stashFails))
    = true
  /\ (forallb
        (notGit (fun c => String.eqb c "pull --rebase" || String.eqb c "stash pop"
                          || pushPhaseCmd c))
        (events Mock.sync (initial Fixture.stashFails)) = true
      /\ existsb Shape.syncErrorLine (events Mock.sync (initial Fixture.stashFails))
         = true).
Proof.
  split; [reflexivity |].
  apply (stash_failure_aborts_cycle Mock.World Mock.execSync Mock.toISOString
           Mock.GIT_AUTO_MESSAGE (initial Fixture.stashFails)).
  reflexivity.
Defined.

Lemma syncToOrigin_failures_witness :
  existsb (gitFailed (String.eqb "push"))
    (events Mock.syncToOrigin (initial Fixture.pushRejected)) = true
  /\ outcome Mock.syncToOrigin (initial Fixture.pushRejected) = Normal tt
  /\ outcome Mock.syncToOrigin (initial Fixture.addFails)
     = Throw "fatal: Unable to create index.lock".
Proof.
  split; [reflexivity |]. split; [| reflexivity].
  apply (proj2 (syncToOrigin_failures Mock.World Mock.execSync Mock.toISOString
                  Mock.GIT_AUTO_MESSAGE (initial Fixture.pushRejected))).
  reflexivity.
Defined.

Lemma no_divergence_skips_pull_witness :
  isSyncing (initial Fixture.dirtyLevel) = false
  /\ existsb (isGit pushPhaseCmd) (events Mock.sync (initial Fixture.dirtyLevel)) = true
  /\ forallb (notGit Shape.shelvePullCmd) (events Mock.sync (initial Fixture.dirtyLevel))
     = true.
Proof.
  split; [reflexivity |]. split; [reflexivity |].
  apply (no_divergence_skips_pull Mock.World Mock.execSync Mock.toISOString
           Mock.GIT_AUTO_MESSAGE (initial Fixture.dirtyLevel)); reflexivity.
Defined.

Lemma clean_cycle_reads_only_witness :
  isSyncing (initial Fixture.cleanLevel) = false
  /\ gitCalls (events Mock.sync (initial Fixture.cleanLevel))
     = [upstreamQuery; upstreamQuery; "fetch"; "rev-parse HEAD"; "rev-parse @{u}";
        "status --porcelain"]
  /\ (forallb ReadOnly.eventOrLock (events Mock.sync (initial Fixture.cleanLevel)) = true
      /\ forallb (notGit Shape.mutatingCmd) (events Mock.sync (initial Fixture.cleanLevel))
         = true).
Proof.
  split; [reflexivity |]. split; [reflexivity |].
  apply (clean_cycle_reads_only Mock.World Mock.execSync Mock.toISOString
           Mock.GIT_AUTO_MESSAGE (initial Fixture.cleanLevel)); reflexivity.
Defined.


Lemma origin_sync_releases_lock_witness :
  isSyncing (initial Fixture.originConflictTwice) = false
  /\ (outcome Fixture.originSync (initial Fixture.originConflictTwice) = Normal tt
      /\ isSyncing (final Fixture.originSync (initial Fixture.originConflictTwice)) = false
      /\ releases (events Fixture.originSync (initial Fixture.originConflictTwice)) = 1).
Proof.
  split; [reflexivity |].
  apply (origin_sync_releases_lock Mock.World Mock.execSync Mock.toISOString
           (initial Fixture.originConflictTwice)).
  reflexivity.
Defined.

Lemma origin_failed_pull_skips_push_witness :
  existsb (gitFailed (String.eqb "pull --rebase origin main"))
    (events Fixture.originSync (initial Fixture.originConflict)) = true
  /\ (forallb (notGit OriginMain.pushPhaseCmd)
        (events Fixture.originSync (initial Fixture.originConflict)) = true
      /\ existsb Shape.syncErrorLine
           (events Fixture.originSync (initial Fixture.originConflict)) = true).
Proof.
  split; [reflexivity |].
  apply (origin_failed_pull_skips_push Mock.World Mock.execSync Mock.toISOString
           (initial Fixture.originConflict)).
  reflexivity.
Defined.


Lemma pushonly_call_shape_witness :
  isSyncing (mkState true Fixture.pushOnlyDirty) = true
  /\ gitCalls (events Fixture.pushOnlySync (mkState true Fixture.pushOnlyDirty)) = []
  /\ isSyncing (initial Fixture.blankStatus) = false
  /\ PushOnly.callShapeFor false
       (Shape.outcomes (fun _ => true)
          (events Fixture.pushOnlySync (initial Fixture.blankStatus))) = true.
Proof.
  split; [reflexivity |]. split.
  - apply (proj1 (pushonly_call_shape Mock.World Mock.execSync Mock.toISOString
                    (mkState true Fixture.pushOnlyDirty))).
    reflexivity.
  - split; [reflexivity |].
    apply (proj2 (pushonly_call_shape Mock.World Mock.execSync Mock.toISOString
                    (initial Fixture.blankStatus))).
    reflexivity.
Defined.

Lemma pushonly_sync_lock_witness :
  isSyncing (initial Fixture.pushOnlyClean) = false
  /\ Fixture.pushOnlySync (initial Fixture.pushOnlyClean)
     = (Normal tt, mkState false [], [EvGit "status --porcelain" (Ok "")])
  /\ releases (events Fixture.pushOnlySync (initial Fixture.pushOnlyDirty)) = 1.
Proof.
  split; [reflexivity |]. split.
  - destruct (pushonly_sync_lock Mock.World Mock.execSync Mock.toISOString
                (initial Fixture.pushOnlyClean) eq_refl) as (_ & _ & Hclean & _).
    unfold Fixture.pushOnlySync. rewrite (Hclean eq_refl). reflexivity.
  - destruct (pushonly_sync_lock Mock.World Mock.execSync Mock.toISOString
                (initial Fixture.pushOnlyDirty) eq_refl) as (_ & _ & _ & Hdirty).
    apply (proj1 (Hdirty eq_refl)).
Defined.
